(** * The per-resource daemon supervisor of kopf ([kopf/reactor/daemons.py])

    A shallow embedding of [spawn_resource_daemons], [stop_resource_daemons],
    [daemon_killer], [stop_daemon], [_runner], [_resource_daemon] and
    [_resource_timer].

    Conventions of the embedding:
    - monotonic timestamps and durations are exact numbers of clock ticks
      ([Z]); the rounding of Python floats is not modelled;
    - Python's [x or y] on an optional number is [py_or]: both [None] and
      zero are falsy;
    - a coroutine is a machine that runs from one [await] to the next; what
      the event loop did while the coroutine was suspended is an explicit
      argument (a "tick" or a "resume");
    - the code between two awaits takes no time: all the calls of
      [time.monotonic()] on one such stretch read the same clock value;
    - the stopper of a daemon record is the stopper of its runner's cause,
      one object: what the runner sets on it shows on the record;
    - everything the code shows to the outside (stopper sets, log lines,
      warnings, task creation and cancellation, waits) is recorded as a
      list of [event]s, oldest first. *)

From Stdlib Require Import ZArith List String Bool Lia.
Import ListNotations.
Open Scope Z_scope.

(** ** Python helpers *)

(** [x or default] for an optional number. *)
Definition py_or (x : option Z) (default : Z) : Z :=
  match x with
  | None => default
  | Some v => if v =? 0 then default else v
  end.

(** The exceptions that travel through this module. *)
Inductive exn : Type :=
| RuntimeError (msg : string)
| ZeroDivisionError
| CancelledError
| TypeError (msg : string)
| OtherError (msg : string).

(** ** kopf.structs.primitives *)

Module Primitives.

Inductive DaemonStoppingReason : Type :=
| RESOURCE_DELETED
| OPERATOR_EXITING
| DAEMON_SIGNALLED
| DAEMON_CANCELLED
| DAEMON_ABANDONED
| DONE.

Definition reason_eqb (a b : DaemonStoppingReason) : bool :=
  match a, b with
  | RESOURCE_DELETED, RESOURCE_DELETED
  | OPERATOR_EXITING, OPERATOR_EXITING
  | DAEMON_SIGNALLED, DAEMON_SIGNALLED
  | DAEMON_CANCELLED, DAEMON_CANCELLED
  | DAEMON_ABANDONED, DAEMON_ABANDONED
  | DONE, DONE => true
  | _, _ => false
  end.

(** Modelled from the spec: [primitives.DaemonStopper] is not among the
    sources.  "A small state object holding a set of reasons and a
    first-set timestamp": [reasons] is the set (a duplicate-free list,
    latest first), [when] the monotonic time of the first set. *)
Record DaemonStopper : Type := mkStopper {
  reasons : list DaemonStoppingReason;
  when : option Z
}.

(** [DaemonStopper()] *)
Definition fresh : DaemonStopper := mkStopper [] None.

(** [stopper.is_set(reason=r)] *)
Definition is_set (r : DaemonStoppingReason) (s : DaemonStopper) : bool :=
  existsb (reason_eqb r) (reasons s).

(** [stopper.is_set()] *)
Definition is_set_any (s : DaemonStopper) : bool :=
  match reasons s with
  | [] => false
  | _ :: _ => true
  end.

(** Modelled from the spec: [stopper.set(reason=r)] at clock reading
    [clock].  "Idempotent. If no reason is set yet, records
    [when = now_monotonic()]. Adds [reason] to the set." *)
Definition set_reason (clock : Z) (r : DaemonStoppingReason)
           (s : DaemonStopper) : DaemonStopper :=
  mkStopper (if is_set r s then reasons s else r :: reasons s)
            (if is_set_any s then when s else Some clock).

End Primitives.
Import Primitives.

(** ** kopf.structs.handlers *)

(** Modelled from the spec: [handlers.ResourceDaemonHandler] is not among
    the sources.  A daemon handler "carries optional [initial_delay],
    optional [cancellation_backoff], optional [cancellation_timeout],
    optional [cancellation_polling]"; these are the fields that
    [daemons.py] reads, besides [id]. *)
Record ResourceDaemonHandler : Type := mkDaemonHandler {
  d_id : string;
  d_initial_delay : option Z;
  cancellation_backoff : option Z;
  cancellation_timeout : option Z;
  cancellation_polling : option Z
}.

(** Modelled from the spec: [handlers.ResourceTimerHandler] is not among the
    sources.  A timer handler "carries optional [initial_delay], optional
    [interval], optional [idle], and a boolean [sharp] flag". *)
Record ResourceTimerHandler : Type := mkTimerHandler {
  t_id : string;
  t_initial_delay : option Z;
  interval : option Z;
  idle : option Z;
  sharp : bool
}.

(** [ResourceSpawningHandler]: the two classes the code tests with
    [isinstance], and any other subclass (the [else: raise] branches). *)
Inductive ResourceSpawningHandler : Type :=
| IsDaemonHandler (h : ResourceDaemonHandler)
| IsTimerHandler (h : ResourceTimerHandler)
| IsOtherHandler (id : string).

(** [handler.id] *)
Definition handler_id (h : ResourceSpawningHandler) : string :=
  match h with
  | IsDaemonHandler d => d_id d
  | IsTimerHandler t => t_id t
  | IsOtherHandler id => id
  end.

(** ** What the module shows to the outside *)

Definition DaemonId : Type := string.
Bind Scope string_scope with DaemonId.

Inductive event : Type :=
| EvSet (id : DaemonId) (r : DaemonStoppingReason)   (* stopper.set(reason=r) *)
| EvCreateTask (id : DaemonId)                       (* asyncio.create_task(_runner(...)) *)
| EvCancelTask (id : DaemonId)                       (* daemon.task.cancel() *)
| EvYield                                            (* await asyncio.sleep(0) *)
| EvWaitTask (id : DaemonId) (timeout : Z)           (* await asyncio.wait([task], timeout=...) *)
| EvDebugExited (id : DaemonId)                      (* "has exited gracefully." *)
| EvDebugSignalled (id : DaemonId)                   (* "is signalled to exit gracefully." *)
| EvDebugCancelled (id : DaemonId)                   (* "is signalled to exit by force." *)
| EvDebugPolling (id : DaemonId) (polling : Z)       (* "is still exiting. Next check is in ..." *)
| EvWarnOrphaned (id : DaemonId)                     (* logger.warning("did not exit in time. Leaving it orphaned.") *)
| EvResourceWarning (id : DaemonId).                 (* warnings.warn(..., ResourceWarning) *)


Definition is_create (e : event) : bool :=
  match e with EvCreateTask _ => true | _ => false end.



Definition count (p : event -> bool) (es : list event) : nat :=
  List.length (filter p es).

(** ** kopf.structs.containers *)

(** The asyncio task of a runner, as the supervisor uses it: [task.done()]
    and [task.cancel()], of which the calls are counted. *)
Record Task : Type := mkTask {
  done : bool;
  cancels : nat
}.

Definition cancel (t : Task) : Task := mkTask (done t) (S (cancels t)).

(** Modelled from the spec: [containers.Daemon] is not among the sources.
    "A reference to its descriptor, its stopper, a handle to its runner
    task, and a logger"; the logger is represented by the lines it
    receives, which go to the event list. *)
Record Daemon : Type := mkDaemon {
  stopper : DaemonStopper;
  handler : ResourceSpawningHandler;
  task : Task
}.

(** The daemon table, [MutableMapping[DaemonId, Daemon]]: a Python dict,
    kept in insertion order because [stop_resource_daemons] iterates over
    [daemons.items()] and appends delays in that order. *)
Definition Daemons : Type := list (DaemonId * Daemon).

Fixpoint lookup (id : DaemonId) (ds : Daemons) : option Daemon :=
  match ds with
  | [] => None
  | (k, d) :: rest => if String.eqb k id then Some d else lookup id rest
  end.

(** [daemon_id in daemons] *)
Definition contains (id : DaemonId) (ds : Daemons) : bool :=
  match lookup id ds with Some _ => true | None => false end.

(** [daemons[daemon_id] = daemon] *)
Fixpoint assign (id : DaemonId) (d : Daemon) (ds : Daemons) : Daemons :=
  match ds with
  | [] => [(id, d)]
  | (k, d0) :: rest =>
      if String.eqb k id then (k, d) :: rest else (k, d0) :: assign id d rest
  end.

(** Modelled from the spec: [containers.ResourceMemory] is not among the
    sources.  The fields that [daemons.py] reads: the most recently
    observed body (or [None]), the user data, and the [idle_reset_time] of
    the watch path.  Bodies and user data are opaque here. *)
Record ResourceMemory : Type := mkMemory {
  live_fresh_body : option string;
  user_data : string;
  idle_reset_time : Z
}.

(** ** spawn_resource_daemons *)

Definition spawn_error : exn :=
  RuntimeError "A daemon is spawned with None as body. This is a bug. Please report.".

(** One turn of [for handler in handlers]: a handler whose id is absent gets
    a new stopper, a new runner task and a record; others are skipped. *)
Definition spawn_one (acc : Daemons * list event) (h : ResourceSpawningHandler)
  : Daemons * list event :=
  let '(daemons, evs) := acc in
  let daemon_id := handler_id h in
  if contains daemon_id daemons then (daemons, evs)
  else
    let stopper := Primitives.fresh in
    let daemon := mkDaemon stopper h (mkTask false 0) in
    (assign daemon_id daemon daemons, evs ++ [EvCreateTask daemon_id]).

(** The result of a call: the daemon table afterwards, the events of the
    call, and either the exception that surfaced or the returned delays. *)
Definition outcome : Type := (Daemons * list event * (exn + list Z))%type.

Definition spawn_resource_daemons
           (handlers : list ResourceSpawningHandler)
           (daemons : Daemons) (memory : ResourceMemory) : outcome :=
  match live_fresh_body memory with
  | None => (daemons, [], inl spawn_error)
  | Some _ =>
      let '(daemons', evs) := fold_left spawn_one handlers (daemons, []) in
      (daemons', evs, inr [])
  end.

Definition table_of (o : outcome) : Daemons := fst (fst o).
Definition events_of (o : outcome) : list event := snd (fst o).
Definition result_of (o : outcome) : exn + list Z := snd o.

(** ** stop_resource_daemons *)

Definition DAEMON_POLLING_INTERVAL : Z := 60.

(** What the event loop reports when a supervisor coroutine resumes from an
    [await]: the monotonic clock then, and whether the daemon's task
    finished while the coroutine was suspended.  The events of a stop
    function are what the function itself does; what the runner did
    meanwhile is in the tick. *)
Record tick : Type := mkTick {
  tk_clock : Z;
  tk_finished : bool
}.

(** The record as the supervisor finds it after an [await].  Its stopper is
    the one of the runner's cause ([stopper=stopper] twice in
    [spawn_resource_daemons]), so a task that finished meanwhile has left
    [_runner] through its [finally] and DONE is set on the record. *)
Definition after_await (tk : tick) (d : Daemon) : Daemon :=
  if tk_finished tk
  then mkDaemon (set_reason (tk_clock tk) DONE (stopper d)) (handler d)
                (mkTask true (cancels (task d)))
  else d.

(** [age = (now - (stopper.when or now))] *)
Definition stop_age (now : Z) (s : DaemonStopper) : Z :=
  now - py_or (when s) now.

Definition unsupported_error : exn := RuntimeError "Unsupported daemon handler".

(** The [isinstance] dispatch of [stop_resource_daemons]:
    [(backoff, timeout, polling)]. *)
Definition deletion_deadlines (h : ResourceSpawningHandler)
  : exn + (option Z * option Z * Z) :=
  match h with
  | IsDaemonHandler d =>
      inr (cancellation_backoff d, cancellation_timeout d,
           py_or (cancellation_polling d) DAEMON_POLLING_INTERVAL)
  | IsTimerHandler _ => inr (None, None, DAEMON_POLLING_INTERVAL)
  | IsOtherHandler _ => inl unsupported_error
  end.

Definition with_stopper (d : Daemon) (s : DaemonStopper) : Daemon :=
  mkDaemon s (handler d) (task d).

Definition with_task (d : Daemon) (t : Task) : Daemon :=
  mkDaemon (stopper d) (handler d) t.

(** [if not stopper.is_set(reason=r): stopper.set(reason=r); <then>] *)
Definition flag_once (clock : Z) (id : DaemonId) (r : DaemonStoppingReason)
           (d : Daemon) (then_evs : list event) (then_do : Daemon -> Daemon)
  : Daemon * list event :=
  if is_set r (stopper d) then (d, [])
  else (then_do (with_stopper d (set_reason clock r (stopper d))),
        EvSet id r :: then_evs).

(** The body of [for daemon_id, daemon in daemons.items()].  [now] is the
    clock read once before the loop, [clock] the clock when this turn starts
    and [tk] what is seen after [await asyncio.sleep(0)].  The result is the
    record afterwards, the events of the turn and the delays it appends. *)
Definition stop_resource_daemon (now clock : Z) (tk : tick)
           (daemon_id : DaemonId) (daemon : Daemon)
  : exn + (Daemon * list event * list Z) :=
  let age := stop_age now (stopper daemon) in
  match deletion_deadlines (handler daemon) with
  | inl e => inl e
  | inr (backoff, timeout, polling) =>
      let d1 := with_stopper daemon
                  (set_reason clock RESOURCE_DELETED (stopper daemon)) in
      let d2 := after_await tk d1 in
      let evs := [EvSet daemon_id RESOURCE_DELETED; EvYield] in
      let clock' := tk_clock tk in
      if done (task d2) then inr (d2, evs, [])   (* if daemon.task.done(): pass *)
      else
        let abandoned_or_polling :=
          match timeout with
          | Some _ =>                              (* elif timeout is not None: *)
              let '(d3, evs') :=
                flag_once clock' daemon_id DAEMON_ABANDONED d2
                          [EvWarnOrphaned daemon_id; EvResourceWarning daemon_id]
                          (fun d => d) in
              inr (d3, evs ++ evs', [])
          | None =>                                (* else: *)
              inr (d2, evs ++ [EvDebugPolling daemon_id polling], [polling])
          end in
        let forceful_or_later :=
          match timeout with
          | Some t =>   (* elif timeout is not None and age < timeout + (backoff or 0): *)
              if age <? t + py_or backoff 0 then
                let '(d3, evs') :=
                  flag_once clock' daemon_id DAEMON_CANCELLED d2
                            [EvDebugCancelled daemon_id; EvCancelTask daemon_id]
                            (fun d => with_task d (cancel (task d))) in
                inr (d3, evs ++ evs', [t + py_or backoff 0 - age])
              else abandoned_or_polling
          | None => abandoned_or_polling
          end in
        match backoff with
        | Some b =>     (* elif backoff is not None and age < backoff: *)
            if age <? b then
              let '(d3, evs') :=
                flag_once clock' daemon_id DAEMON_SIGNALLED d2
                          [EvDebugSignalled daemon_id] (fun d => d) in
              inr (d3, evs ++ evs', [b - age])
            else forceful_or_later
        | None => forceful_or_later
        end
  end.

(** The loop of [stop_resource_daemons] over [daemons.items()].  [env] tells
    what is seen after the yield of each daemon's turn.  An exception leaves
    the records of the earlier turns changed and loses the delays. *)
Fixpoint stop_items (now clock : Z) (env : DaemonId -> tick) (items : Daemons)
  : outcome :=
  match items with
  | [] => ([], [], inr [])
  | (daemon_id, daemon) :: rest =>
      match stop_resource_daemon now clock (env daemon_id) daemon_id daemon with
      | inl e => (items, [], inl e)
      | inr (daemon', evs, delays) =>
          let '(rest', evs', r) :=
            stop_items now (tk_clock (env daemon_id)) env rest in
          ((daemon_id, daemon') :: rest', evs ++ evs',
           match r with
           | inl e => inl e
           | inr delays' => inr (delays ++ delays')
           end)
      end
  end.

(** [stop_resource_daemons(settings=..., daemons=...)], entered when the
    monotonic clock reads [now]. *)
Definition stop_resource_daemons (now : Z) (env : DaemonId -> tick)
           (daemons : Daemons) : outcome :=
  stop_items now now env daemons.

(** ** stop_daemon *)

(** What [stop_daemon] sees of the world: the clock on entry and a tick for
    each of its three awaits (the yield, the wait of [backoff] seconds, the
    wait of [timeout] seconds); a tick is only looked at when its await is
    reached. *)
Record exit_env : Type := mkExitEnv {
  on_entry : Z;
  on_yield : tick;
  on_backoff : tick;
  on_timeout : tick
}.

(** The [isinstance] dispatch of [stop_daemon]: [(backoff, timeout)]. *)
Definition exit_deadlines (h : ResourceSpawningHandler)
  : exn + (option Z * option Z) :=
  match h with
  | IsDaemonHandler d => inr (cancellation_backoff d, cancellation_timeout d)
  | IsTimerHandler _ => inr (None, None)
  | IsOtherHandler _ => inl unsupported_error
  end.

Definition set_on (clock : Z) (r : DaemonStoppingReason) (d : Daemon) : Daemon :=
  with_stopper d (set_reason clock r (stopper d)).

(** [stop_daemon(daemon_id=..., daemon=...)]: the record afterwards and the
    events of the call, or the exception of the dispatch. *)
Definition stop_daemon (env : exit_env) (daemon_id : DaemonId) (daemon : Daemon)
  : exn + (Daemon * list event) :=
  match exit_deadlines (handler daemon) with
  | inl e => inl e
  | inr (backoff, timeout) =>
      let d1 := set_on (on_entry env) OPERATOR_EXITING daemon in
      let d1 := after_await (on_yield env) d1 in
      let clock1 := tk_clock (on_yield env) in
      let evs1 :=
        [EvSet daemon_id OPERATOR_EXITING; EvYield]
        ++ (if done (task d1) then [EvDebugExited daemon_id] else []) in
      let '(d2, evs2, clock2) :=
        match backoff with
        | Some b =>
            if negb (done (task d1)) then
              let d := set_on clock1 DAEMON_SIGNALLED d1 in
              (after_await (on_backoff env) d,
               evs1 ++ [EvSet daemon_id DAEMON_SIGNALLED;
                        EvDebugSignalled daemon_id; EvWaitTask daemon_id b],
               tk_clock (on_backoff env))
            else (d1, evs1, clock1)
        | None => (d1, evs1, clock1)
        end in
      let '(d3, evs3, clock3) :=
        match timeout with
        | Some t =>
            if negb (done (task d2)) then
              let d := set_on clock2 DAEMON_CANCELLED d2 in
              let d := with_task d (cancel (task d)) in
              (after_await (on_timeout env) d,
               evs2 ++ [EvSet daemon_id DAEMON_CANCELLED;
                        EvDebugCancelled daemon_id; EvCancelTask daemon_id;
                        EvWaitTask daemon_id t],
               tk_clock (on_timeout env))
            else (d2, evs2, clock2)
        | None => (d2, evs2, clock2)
        end in
      if negb (done (task d3)) then
        inr (set_on clock3 DAEMON_ABANDONED d3,
             evs3 ++ [EvSet daemon_id DAEMON_ABANDONED;
                      EvWarnOrphaned daemon_id; EvResourceWarning daemon_id])
      else inr (d3, evs3)
  end.

(** ** The runner: _runner, _resource_daemon, _resource_timer *)

(** Modelled from the spec: [states.State] is not among the sources.  "The
    runner treats outcomes as opaque and uses only [state.done] (bool),
    [state.delay] / [state.delays]". *)
Record State : Type := mkState {
  st_done : bool;
  st_delay : option Z;
  st_delays : list Z
}.

(** Modelled from the spec: [states.State.from_scratch(handlers=[handler])],
    "a fresh invocation-state with a single handler", which is not done
    before the handler has run. *)
Definition from_scratch : State := mkState false None [].

(** How an [await] ends for the runner. *)
Inductive completion : Type :=
| Returns
| Raises (e : exn).

(** What the runner finds when an [await] completes: the clock, the
    [memory.idle_reset_time] written by the watch path, the reasons that
    others set on the stopper meanwhile, how the awaited call ended
    ([Raises CancelledError] when the task was cancelled) and, for
    [execute_handlers_once], the state [state.with_outcomes(outcomes)] and
    whether [deliver_results] put something into the patch.  The awaited
    calls ([sleeping.sleep_or_wait], [handling.execute_handlers_once],
    [patching.patch_obj]) are not among the sources: when and how they
    complete is left to the resumes. *)
Record resume : Type := mkResume {
  r_clock : Z;
  r_idle_reset_time : Z;
  r_set : list DaemonStoppingReason;
  r_completion : completion;
  r_state : State;
  r_patched : bool
}.

(** The [await]s of [_resource_daemon], with the live local variables. *)
Inductive daemon_await : Type :=
| DInitialDelay (delay : Z)                (* sleep_or_wait(handler.initial_delay, stopper) *)
| DExecute (state : State)                 (* handling.execute_handlers_once(...) *)
| DPatch (state : State)                   (* patching.patch_obj(...) *)
| DSleep (delay : option Z) (state : State).  (* sleep_or_wait(state.delay, stopper) *)

(** The [await]s of [_resource_timer], with the live local variables. *)
Inductive timer_await : Type :=
| TInitialDelay (delay : Z)                       (* sleep_or_wait(handler.initial_delay, stopper) *)
| TIdleGate (delay : Z) (state : State)           (* sleep_or_wait(delay, stopper), line 383 *)
| TExecute (state : State) (started : Z)          (* handling.execute_handlers_once(...) *)
| TPatch (state : State) (started : Z)            (* patching.patch_obj(...) *)
| TRetrySleep (delays : list Z) (state : State)   (* sleep_or_wait(state.delays, stopper) *)
| TSharpSleep (delay : Z) (state : State)         (* sleep_or_wait(remaining_delay, stopper) *)
| TIntervalSleep (delay : Z) (state : State)      (* sleep_or_wait(handler.interval, stopper) *)
| TIdleWait (delay : Z) (state : State) (started : Z). (* sleep_or_wait(handler.idle, stopper), line 430 *)

Inductive status : Type :=
| DaemonAwaits (h : ResourceDaemonHandler) (a : daemon_await)
| TimerAwaits (h : ResourceTimerHandler) (a : timer_await)
| Finished (raised : option exn).   (* the coroutine returned or raised *)

(** The world of one runner between two awaits: the clock, the memory's
    [idle_reset_time], the stopper of the cause, whether [cause.patch] is
    non-empty, and the start times of the handler invocations so far. *)
Record ctx : Type := mkCtx {
  x_clock : Z;
  x_idle_reset_time : Z;
  x_stopper : DaemonStopper;
  x_patch : bool;
  x_fired : list Z
}.

Definition cfg : Type := (status * ctx)%type.

Definition set_all (clock : Z) (rs : list DaemonStoppingReason)
           (s : DaemonStopper) : DaemonStopper :=
  fold_left (fun s r => set_reason clock r s) rs s.

(** The world as the runner finds it on resumption. *)
Definition observe (x : ctx) (r : resume) : ctx :=
  mkCtx (r_clock r) (r_idle_reset_time r)
        (set_all (r_clock r) (r_set r) (x_stopper x))
        (x_patch x) (x_fired x).

Definition fire (x : ctx) : ctx :=
  mkCtx (x_clock x) (x_idle_reset_time x) (x_stopper x) (x_patch x)
        (x_fired x ++ [x_clock x]).

Definition with_patch (x : ctx) (p : bool) : ctx :=
  mkCtx (x_clock x) (x_idle_reset_time x) (x_stopper x) p (x_fired x).

(** *** _resource_daemon *)

(** [while not cause.stopper.is_set() and not state.done:] up to the next
    await. *)
Definition daemon_loop (h : ResourceDaemonHandler) (x : ctx) (state : State) : cfg :=
  if negb (is_set_any (x_stopper x)) && negb (st_done state)
  then (DaemonAwaits h (DExecute state), fire x)
  else (Finished None, x).

Definition daemon_start (h : ResourceDaemonHandler) (x : ctx) : cfg :=
  match d_initial_delay h with
  | Some delay => (DaemonAwaits h (DInitialDelay delay), x)
  | None => daemon_loop h x from_scratch
  end.

Definition daemon_resume (h : ResourceDaemonHandler) (a : daemon_await)
           (x0 : ctx) (r : resume) : cfg :=
  let x := observe x0 r in
  match r_completion r with
  | Raises e => (Finished (Some e), x)
  | Returns =>
      match a with
      | DInitialDelay _ => daemon_loop h x from_scratch
      | DExecute _ =>
          let state := r_state r in
          let x := with_patch x (x_patch x || r_patched r) in
          if x_patch x then (DaemonAwaits h (DPatch state), x)
          else (DaemonAwaits h (DSleep (st_delay state) state), x)
      | DPatch state =>
          (DaemonAwaits h (DSleep (st_delay state) state), with_patch x false)
      | DSleep _ state => daemon_loop h x state
      end
  end.

(** *** _resource_timer *)

(** The condition of the main loop, [while not cause.stopper.is_set():]:
    the function returns when the stopper is set. *)
Definition timer_exit_or (x : ctx) (continue : cfg) : cfg :=
  if is_set_any (x_stopper x) then (Finished None, x) else continue.

(** From [started = time.monotonic()] to the await of the handler. *)
Definition timer_fire (h : ResourceTimerHandler) (x : ctx) (state : State) : cfg :=
  (TimerAwaits h (TExecute state (x_clock x)), fire x).

(** The idle gate, [if handler.idle is not None: while ...], up to the next
    await; [continue] leads to the head of the main loop, whose condition
    then fails.  The two calls of [time.monotonic()] of lines 381 and 382
    are taken at the same instant [x_clock x]; in the source the second one
    is later by the time the interpreter needs in between, and the delay
    smaller by as much. *)
Definition timer_gate (h : ResourceTimerHandler) (x : ctx) (state : State) : cfg :=
  match idle h with
  | Some idl =>
      if negb (is_set_any (x_stopper x))
         && (x_clock x - x_idle_reset_time x <? idl)
      then (TimerAwaits h
              (TIdleGate (x_idle_reset_time x + idl - x_clock x) state), x)
      else timer_exit_or x (timer_fire h x state)
  | None => timer_fire h x state
  end.

(** [while not cause.stopper.is_set():] up to the next await. *)
Definition timer_loop (h : ResourceTimerHandler) (x : ctx) (state : State) : cfg :=
  timer_exit_or x
    (let state := if st_done state then from_scratch else state in
     timer_gate h x state).

(** The wait of an idle-only timer for the next change,
    [while memory.idle_reset_time <= started:]. *)
Definition timer_idle_wait (h : ResourceTimerHandler) (idl : Z) (x : ctx)
           (state : State) (started : Z) : cfg :=
  if x_idle_reset_time x <=? started
  then (TimerAwaits h (TIdleWait idl state started), x)
  else timer_loop h x state.

(** [passed_duration % handler.interval]: a float modulo, which raises
    [ZeroDivisionError] on zero and takes the sign of the divisor. *)
Definition py_mod (a b : Z) : exn + Z :=
  if b =? 0 then inl ZeroDivisionError else inr (a mod b).

(** The [if not state.done: ... elif ... else: break] chain after the
    patching. *)
Definition timer_schedule (h : ResourceTimerHandler) (x : ctx)
           (state : State) (started : Z) : cfg :=
  if negb (st_done state)
  then (TimerAwaits h (TRetrySleep (st_delays state) state), x)
  else
    match interval h with
    | Some i =>
        if sharp h then
          let passed_duration := x_clock x - started in
          match py_mod passed_duration i with
          | inl e => (Finished (Some e), x)
          | inr m =>
              let remaining_delay := i - m in
              (TimerAwaits h (TSharpSleep remaining_delay state), x)
          end
        else (TimerAwaits h (TIntervalSleep i state), x)
    | None =>
        match idle h with
        | Some idl => timer_idle_wait h idl x state started
        | None => (Finished None, x)
        end
    end.

Definition timer_start (h : ResourceTimerHandler) (x : ctx) : cfg :=
  match t_initial_delay h with
  | Some delay => (TimerAwaits h (TInitialDelay delay), x)
  | None => timer_loop h x from_scratch
  end.

Definition timer_resume (h : ResourceTimerHandler) (a : timer_await)
           (x0 : ctx) (r : resume) : cfg :=
  let x := observe x0 r in
  match r_completion r with
  | Raises e => (Finished (Some e), x)
  | Returns =>
      match a with
      | TInitialDelay _ => timer_loop h x from_scratch
      | TIdleGate _ state => timer_gate h x state
      | TExecute _ started =>
          let state := r_state r in
          let x := with_patch x (x_patch x || r_patched r) in
          if x_patch x then (TimerAwaits h (TPatch state started), x)
          else timer_schedule h x state started
      | TPatch state started =>
          timer_schedule h (with_patch x false) state started
      | TRetrySleep _ state
      | TSharpSleep _ state
      | TIntervalSleep _ state => timer_loop h x state
      | TIdleWait idl state started => timer_idle_wait h idl x state started
      end
  end.

(** *** _runner *)

Definition runner_error : exn :=
  RuntimeError "Cannot determine which task wrapper to use. This is a bug.".

(** [finally: cause.stopper.set(reason=DONE)], run when the body is left. *)
Definition finally_done (c : cfg) : cfg :=
  match fst c with
  | Finished _ =>
      let x := snd c in
      (fst c, mkCtx (x_clock x) (x_idle_reset_time x)
                    (set_reason (x_clock x) DONE (x_stopper x))
                    (x_patch x) (x_fired x))
  | _ => c
  end.

(** The runner from its first step to its first await. *)
Definition runner_start (handler : ResourceSpawningHandler) (x : ctx) : cfg :=
  finally_done
    match handler with
    | IsDaemonHandler h => daemon_start h x
    | IsTimerHandler h => timer_start h x
    | IsOtherHandler _ => (Finished (Some runner_error), x)
    end.

(** The runner from the completion of one await to the next await; a
    finished task is not resumed any more. *)
Definition runner_resume (c : cfg) (r : resume) : cfg :=
  match fst c with
  | DaemonAwaits h a => finally_done (daemon_resume h a (snd c) r)
  | TimerAwaits h a => finally_done (timer_resume h a (snd c) r)
  | Finished _ => c
  end.

(** [_runner(settings=..., handler=..., memory=..., cause=...)] driven
    through the given completions of its awaits. *)
Definition _runner (handler : ResourceSpawningHandler) (x : ctx)
           (rs : list resume) : cfg :=
  fold_left runner_resume rs (runner_start handler x).

(** The world in which a runner is started by [spawn_resource_daemons]. *)
Definition initial_ctx (clock idle_reset : Z) : ctx :=
  mkCtx clock idle_reset Primitives.fresh false [].

(** ** daemon_killer *)

(** What the killer has to show for one daemon: the id and how its
    [stop_daemon] coroutine ended. *)
Definition stopped : Type := (DaemonId * (exn + (Daemon * list event)))%type.

(** The comprehension [[stop_daemon(daemon_id=..., daemon=...) for memory in
    ... for daemon_id, daemon in memory.daemons.items()]], run to the end by
    [asyncio.wait(coros)].  The coroutines run interleaved, but each one
    reads and writes its own daemon record only, so each is given by its own
    [exit_env] ([env n id] for the daemon [id] of the [n]-th memory) and the
    results are kept per daemon; an exception of a coroutine stays in its
    task and is not raised by [asyncio.wait]. *)
Definition stop_memory (env : DaemonId -> exit_env) (daemons : Daemons)
  : list stopped :=
  map (fun item => (fst item, stop_daemon (env (fst item)) (fst item) (snd item)))
      daemons.

Fixpoint stop_memories (env : nat -> DaemonId -> exit_env) (n : nat)
         (memories : list Daemons) : list (list stopped) :=
  match memories with
  | [] => []
  | daemons :: rest =>
      stop_memory (env n) daemons :: stop_memories env (S n) rest
  end.

(** Modelled from the documentation of asyncio, which is not among the
    sources: what [asyncio.wait] does with coroutine objects depends on the
    interpreter.  Up to Python 3.10 it wraps them into tasks and runs them
    (deprecated since 3.8); from Python 3.11 on it raises TypeError before
    any of them has run. *)
Inductive wait_policy : Type :=
| WrapsCoroutines
| RefusesCoroutines.

Definition wait_error : exn :=
  TypeError "Passing coroutines is forbidden, use tasks explicitly.".

(** [daemon_killer(settings=..., memories=...)].  [wait] is how
    [await asyncio.Event().wait()] ends: only [CancelledError] is caught.
    Then the coroutines of all daemons of all memories are made and, [if
    coros:], handed to [asyncio.wait]. *)
Definition daemon_killer (wait : completion) (policy : wait_policy)
           (env : nat -> DaemonId -> exit_env)
           (memories : list Daemons) : exn + list (list stopped) :=
  match wait with
  | Raises CancelledError | Returns =>
      match List.concat memories, policy with
      | _ :: _, RefusesCoroutines => inl wait_error
      | _, _ => inr (stop_memories env 0 memories)
      end
  | Raises e => inl e
  end.

(** * Notions used in the statements *)

(** ** Tables and records *)

(** Every handler of the list has a record in the table. *)
Definition all_present (handlers : list ResourceSpawningHandler) (ds : Daemons) : Prop :=
  Forall (fun h => contains (handler_id h) ds = true) handlers.

(** The record that [spawn_resource_daemons] inserts for a handler. *)
Definition spawned (h : ResourceSpawningHandler) : Daemon :=
  mkDaemon Primitives.fresh h (mkTask false 0).

(** The keys of a table, in its order. *)
Definition keys (ds : Daemons) : list DaemonId := map fst ds.

(** Every handler of the table is a daemon handler or a timer handler. *)
Definition supported (items : Daemons) : Prop :=
  Forall (fun item => match handler (snd item) with
                      | IsOtherHandler _ => False
                      | _ => True
                      end) items.

(** The handler carries neither a [cancellation_backoff] nor a
    [cancellation_timeout]; a timer handler never does. *)
Definition no_deadlines (h : ResourceSpawningHandler) : Prop :=
  match h with
  | IsDaemonHandler d =>
      cancellation_backoff d = None /\ cancellation_timeout d = None
  | IsTimerHandler _ => True
  | IsOtherHandler _ => False
  end.

(** A record on which DAEMON_CANCELLED is set only together with a
    [task.cancel()]; [spawn_resource_daemons] makes such records and both
    stop functions keep them so. *)
Definition cancel_follows_flag (d : Daemon) : Prop :=
  is_set DAEMON_CANCELLED (stopper d) = true -> (0 < cancels (task d))%nat.

(** ** Turns of stop_resource_daemons *)

(** A daemon that ignores everything: its task is never seen finished.
    [clock] is the clock after the yield. *)
Definition never_finishes (clock : Z) : DaemonId -> tick :=
  fun _ => mkTick clock false.

(** The clock at the start of the turn that follows the turns of [items]. *)
Definition clock_after (clock : Z) (env : DaemonId -> tick) (items : Daemons) : Z :=
  fold_left (fun c item => tk_clock (env (fst item))) items clock.

(** What the first two events of every turn of [stop_resource_daemons] are. *)
Definition turn_prefix (id : DaemonId) : list event :=
  [EvSet id RESOURCE_DELETED; EvYield].

(** The shape of a turn of [stop_resource_daemons] that finds the daemon
    [d] unfinished in the phase of reason [r]: the delays are [delays], the
    reason is set afterwards, and the phase's [actions] (with a
    [task.cancel()] when [cancelling]) are done exactly when the reason was
    not set before; otherwise the turn does nothing beyond its prefix.  The
    reasons of the other phases and the stopper's timestamp (once it has
    one) are left as they were; [clock] is the time of the turn. *)
Definition phase_visit (clock : Z) (id : DaemonId) (d : Daemon)
           (r : DaemonStoppingReason)
           (actions : list event) (cancelling : bool) (delays : list Z)
           (res : exn + (Daemon * list event * list Z)) : Prop :=
  exists d' evs,
    res = inr (d', evs, delays)
    /\ is_set r (stopper d') = true
    /\ done (task d') = false
    /\ handler d' = handler d
    /\ when (stopper d') = when (set_reason clock RESOURCE_DELETED (stopper d))
    /\ (forall q, q <> r -> q <> RESOURCE_DELETED ->
                  is_set q (stopper d') = is_set q (stopper d))
    /\ if is_set r (stopper d)
       then evs = turn_prefix id
            /\ cancels (task d') = cancels (task d)
       else evs = turn_prefix id ++ EvSet id r :: actions
            /\ cancels (task d') =
               if cancelling then S (cancels (task d)) else cancels (task d).

(** ** Calls of stop_resource_daemons *)

(** The call of [stop_resource_daemons] at [now] on a table in which the
    record [d] of [id] stands after the records [pre] and before the
    records [post]: the call returns its delays (it does not raise); up to
    the turn of [id] it does what it does on [pre] alone; and [turn] holds
    of the record of [id] afterwards, of the events of its turn and of the
    delays that this turn adds to the returned ones. *)
Definition visits (now : Z) (env : DaemonId -> tick)
           (pre : Daemons) (id : DaemonId) (d : Daemon) (post : Daemons)
           (turn : Daemon -> list event -> list Z -> Prop) : Prop :=
  exists pre' evs1 delays1 d' evs delays post' evs2 delays2,
    stop_resource_daemons now env (pre ++ (id, d) :: post)
    = (pre' ++ (id, d') :: post', evs1 ++ evs ++ evs2,
       inr (delays1 ++ delays ++ delays2))
    /\ stop_resource_daemons now env pre = (pre', evs1, inr delays1)
    /\ keys post' = keys post
    /\ turn d' evs delays.



(** ** Runs of the runner *)

(** The runner has left its coroutine (returned or raised). *)
Definition finished (c : cfg) : Prop :=
  exists raised, fst c = Finished raised.

(** The runner is suspended at an await. *)
Definition awaiting (c : cfg) : Prop :=
  match fst c with Finished _ => False | _ => True end.

(** DONE is set on the stopper of the runner's cause. *)
Definition done_is_set (c : cfg) : Prop :=
  is_set DONE (x_stopper (snd c)) = true.

(** An await that returns normally at [clock], with nothing else
    happening: no reason set by others, no watch event (the memory's
    [idle_reset_time] stays at [idle_reset]). *)
Definition wakes (clock idle_reset : Z) : resume :=
  mkResume clock idle_reset [] Returns from_scratch false.

(** The handler returns at [clock] with success and an empty patch, while
    others set the reasons [set]. *)
Definition succeeds (clock idle_reset : Z) (set : list DaemonStoppingReason)
  : resume :=
  mkResume clock idle_reset set Returns (mkState true None []) false.

(** The awaited call raises [e] at [clock]. *)
Definition raises (clock idle_reset : Z) (e : exn) : resume :=
  mkResume clock idle_reset [] (Raises e) from_scratch false.

(** ** The grid of a sharp timer *)


(** A punctual completion of the await at which the timer [c] is
    suspended: the handler ends with success, not before it was started;
    the patching ends not before the handler was started; a sleep of a
    sharp timer and a sleep of the idle gate end exactly when the requested
    delay has passed.  How the await ends otherwise (returning, raising,
    with reasons set on the stopper, with a patch) is left open. *)
Definition punctual (c : cfg) (r : resume) : Prop :=
  match fst c with
  | TimerAwaits _ (TExecute _ started) =>
      started <= r_clock r /\ st_done (r_state r) = true
  | TimerAwaits _ (TPatch _ started) => started <= r_clock r
  | TimerAwaits _ (TSharpSleep delay _)
  | TimerAwaits _ (TIdleGate delay _) =>
      r_clock r = x_clock (snd c) + delay
  | _ => True
  end.

Fixpoint punctual_run (c : cfg) (rs : list resume) : Prop :=
  match rs with
  | [] => True
  | r :: rs' => punctual c r /\ punctual_run (runner_resume c r) rs'
  end.



(** ** The handlers of the scenarios *)

(** The daemon of the escalation scenario: five ticks of grace, ten more
    after the cancellation. *)
Definition escalating_handler : ResourceDaemonHandler :=
  mkDaemonHandler "fn" None (Some 5) (Some 10) None.

(** Both deadlines configured as zero. *)
Definition zero_handler : ResourceDaemonHandler :=
  mkDaemonHandler "fn" None (Some 0) (Some 0) None.

(** A daemon without delays and deadlines. *)
Definition plain_daemon : ResourceDaemonHandler :=
  mkDaemonHandler "fn" None None None None.

(** A timer handler as the supervisor sees it. *)
Definition some_timer : ResourceTimerHandler :=
  mkTimerHandler "tick" None (Some 5) None true.

(** A timer that only waits for idleness: [idle = 3], no interval. *)
Definition idle_only_timer : ResourceTimerHandler :=
  mkTimerHandler "tick" None None (Some 3) false.

(** A sharp timer with [interval = 5]. *)
Definition sharp_timer : ResourceTimerHandler :=
  mkTimerHandler "tick" None (Some 5) None true.


(** The same timer without [sharp]. *)
Definition regular_timer : ResourceTimerHandler :=
  mkTimerHandler "tick" None (Some 5) None false.


(** ** Notions of the further properties *)

(** The handler is one that the [isinstance] dispatches know. *)
Definition is_supported (h : ResourceSpawningHandler) : Prop :=
  match h with IsOtherHandler _ => False | _ => True end.

(** RESOURCE_DELETED is set on every record of the table. *)
Definition all_deleted (ds : Daemons) : Prop :=
  Forall (fun item => is_set RESOURCE_DELETED (stopper (snd item)) = true) ds.

(** The polling interval of the handler, if it has one, is not negative. *)
Definition polling_not_negative (h : ResourceSpawningHandler) : Prop :=
  match h with
  | IsDaemonHandler d =>
      match cancellation_polling d with Some p => 0 <= p | None => True end
  | _ => True
  end.

(** How [stop_daemon] may leave a daemon: with OPERATOR_EXITING set, and
    either finished or flagged as abandoned; or with the error of the
    dispatch. *)
Definition put_down (r : stopped) : Prop :=
  match snd r with
  | inl e => e = unsupported_error
  | inr (d, _) =>
      is_set OPERATOR_EXITING (stopper d) = true
      /\ (done (task d) = true \/ is_set DAEMON_ABANDONED (stopper d) = true)
  end.


(** How many of its awaits a runner whose stopper is set can still go
    through: the invocation, the patching, one sleep. *)
Definition awaits_left (s : status) : nat :=
  match s with
  | DaemonAwaits _ (DExecute _) | TimerAwaits _ (TExecute _ _) => 3
  | DaemonAwaits _ (DPatch _) | TimerAwaits _ (TPatch _ _) => 2
  | DaemonAwaits _ _ | TimerAwaits _ _ => 1
  | Finished _ => 0
  end.

(** The awaits of the two idle loops belong to timers with [idle]; that of
    the wait for the next change to those without [interval] too. *)
Definition timer_placed (h : ResourceTimerHandler) (a : timer_await) : Prop :=
  match a with
  | TIdleGate _ _ => idle h <> None
  | TIdleWait _ _ _ => interval h = None /\ idle h <> None
  | _ => True
  end.

(** The runner of [handler] is in a place of its own code. *)
Definition agrees (handler : ResourceSpawningHandler) (c : cfg) : Prop :=
  match fst c with
  | DaemonAwaits h _ => handler = IsDaemonHandler h
  | TimerAwaits h a => handler = IsTimerHandler h /\ timer_placed h a
  | Finished _ => True
  end.

(** The handler is not a timer that waits for the next change after a
    success (a timer with [idle] and without [interval]). *)
Definition no_idle_wait (handler : ResourceSpawningHandler) : Prop :=
  match handler with
  | IsTimerHandler h => interval h <> None \/ idle h = None
  | _ => True
  end.

(** The patch is non-empty exactly while it is being sent. *)
Definition patch_in_place (c : cfg) : Prop :=
  match fst c with
  | DaemonAwaits _ (DPatch _) | TimerAwaits _ (TPatch _ _) =>
      x_patch (snd c) = true
  | DaemonAwaits _ _ | TimerAwaits _ _ => x_patch (snd c) = false
  | Finished _ => True
  end.

(** A daemon runner whose handler has succeeded: it is sending the patch
    or sleeping with a state that is done, or it has left. *)
Definition settled (c : cfg) : Prop :=
  match fst c with
  | DaemonAwaits _ (DPatch state) | DaemonAwaits _ (DSleep _ state) =>
      st_done state = true
  | Finished _ => True
  | _ => False
  end.


(** The resource has been quiet for the [idle] time of a timer handler:
    at [clock], the last reset [idle_reset] is at least [idle] ago. *)
Definition gate_open (handler : ResourceSpawningHandler) (clock idle_reset : Z)
  : Prop :=
  match handler with
  | IsTimerHandler h =>
      match idle h with
      | Some idl => idl <= clock - idle_reset
      | None => True
      end
  | _ => True
  end.

(** From [c] to [c'] the handler was not invoked, or it was invoked once,
    at [clock], with the stopper unset and the idle gate open. *)
Definition fires_only_when_free (handler : ResourceSpawningHandler)
           (clock idle_reset : Z) (fired : list Z) (c' : cfg) : Prop :=
  x_fired (snd c') = fired
  \/ (x_fired (snd c') = fired ++ [clock]
      /\ is_set_any (x_stopper (snd c')) = false
      /\ gate_open handler clock idle_reset).


(** The handlers that get a daemon when the ids [seen] are taken: those
    whose id is neither taken nor that of an earlier handler of the list,
    in the order of the list. *)
Fixpoint fresh_handlers (seen : list DaemonId)
         (handlers : list ResourceSpawningHandler)
  : list ResourceSpawningHandler :=
  match handlers with
  | [] => []
  | h :: hs =>
      if existsb (fun k => String.eqb k (handler_id h)) seen
      then fresh_handlers seen hs
      else h :: fresh_handlers (seen ++ [handler_id h]) hs
  end.

(** The record and the event that spawn makes for a handler. *)
Definition spawned_item (h : ResourceSpawningHandler) : DaemonId * Daemon :=
  (handler_id h, spawned h).

Definition spawned_event (h : ResourceSpawningHandler) : event :=
  EvCreateTask (handler_id h).

Definition is_create_of (id : DaemonId) (e : event) : bool :=
  match e with EvCreateTask i => String.eqb i id | _ => false end.

(** The first handler of the list with the given id. *)
Definition first_with (id : DaemonId) (handlers : list ResourceSpawningHandler)
  : option ResourceSpawningHandler :=
  find (fun h => String.eqb (handler_id h) id) handlers.

(** Nothing is left to wait for: every daemon of the table is finished or
    flagged as abandoned. *)
Definition all_gone (ds : Daemons) : Prop :=
  Forall (fun item => done (task (snd item)) = true
                      \/ is_set DAEMON_ABANDONED (stopper (snd item)) = true) ds.

(** * Properties *)

(** ** Tactics *)

(** Case analysis on every [match] and [if] of the goal. *)
Ltac split_cases :=
  repeat match goal with
         | |- context [match ?t with _ => _ end] => destruct t eqn:?
         end; simpl; try reflexivity; try congruence.

(** The same on the hypotheses too, with the equations between results
    taken apart. *)
Ltac crack :=
  repeat match goal with
         | |- context [match ?t with _ => _ end] => destruct t eqn:?
         | H : context [match ?t with _ => _ end] |- _ => destruct t eqn:?
         | H : (_, _) = (_, _) |- _ => inversion H; subst; clear H
         | H : inr _ = inr _ |- _ => inversion H; subst; clear H
         | H : inl _ = inr _ |- _ => discriminate H
         end.

(** Case analysis on what each [await] of the supervisor found. *)
Ltac open_awaits :=
  unfold after_await;
  repeat match goal with
         | |- context [tk_finished ?tk] => destruct (tk_finished tk) eqn:?
         end.

(** ** The stopper *)

Section StopperFacts.

Variables (clock : Z) (s : DaemonStopper).

Lemma reason_eqb_refl (r : DaemonStoppingReason) : reason_eqb r r = true.
Proof. destruct r; reflexivity. Qed.

Lemma reason_eqb_eq (a b : DaemonStoppingReason) :
  reason_eqb a b = true <-> a = b.
Proof. destruct a, b; simpl; split; congruence. Qed.

Lemma is_set_set_reason (r q : DaemonStoppingReason) :
  is_set q (set_reason clock r s) = reason_eqb q r || is_set q s.
Proof.
  unfold set_reason, is_set; simpl.
  destruct (existsb (reason_eqb r) (reasons s)) eqn:E; simpl; [|reflexivity].
  destruct (reason_eqb q r) eqn:Q; [|reflexivity].
  apply reason_eqb_eq in Q; subst q. now rewrite E.
Qed.

Lemma is_set_same (r : DaemonStoppingReason) :
  is_set r (set_reason clock r s) = true.
Proof. now rewrite is_set_set_reason, reason_eqb_refl. Qed.

Lemma is_set_any_set_reason (r : DaemonStoppingReason) :
  is_set_any (set_reason clock r s) = true.
Proof.
  unfold set_reason, is_set_any, is_set; simpl.
  destruct (reasons s); simpl; [reflexivity|].
  now destruct (reason_eqb r d || existsb (reason_eqb r) l).
Qed.

Lemma when_set_reason (r : DaemonStoppingReason) :
  when (set_reason clock r s) = if is_set_any s then when s else Some clock.
Proof. reflexivity. Qed.

End StopperFacts.

Lemma is_set_any_set_all (clock : Z) rs s :
  is_set_any s = true -> is_set_any (set_all clock rs s) = true.
Proof.
  unfold set_all. revert s.
  induction rs as [|r rs IH]; simpl; intros s H; [exact H|].
  apply IH, is_set_any_set_reason.
Qed.

(** ** The daemon table *)

Lemma contains_assign_same id d ds : contains id (assign id d ds) = true.
Proof.
  unfold contains.
  induction ds as [|[k d0] rest IH]; simpl.
  - now rewrite String.eqb_refl.
  - destruct (String.eqb k id) eqn:E; simpl; rewrite E; [reflexivity|exact IH].
Qed.

Lemma lookup_assign_other id k d ds :
  String.eqb id k = false -> lookup k (assign id d ds) = lookup k ds.
Proof.
  intro N. induction ds as [|[k0 d0] rest IH]; simpl.
  - now rewrite N.
  - destruct (String.eqb k0 id) eqn:E; simpl.
    + apply String.eqb_eq in E; subst k0. now rewrite N.
    + now rewrite IH.
Qed.

Lemma contains_assign_mono id k d ds :
  contains k ds = true -> contains k (assign id d ds) = true.
Proof.
  destruct (String.eqb id k) eqn:E.
  - apply String.eqb_eq in E; subst k. intros _. apply contains_assign_same.
  - unfold contains. now rewrite lookup_assign_other.
Qed.

(** ** spawn_resource_daemons *)

(** A handler without a record gets the record [spawned h] and one task. *)
Lemma spawn_one_absent ds evs h :
  contains (handler_id h) ds = false ->
  spawn_one (ds, evs) h =
  (assign (handler_id h) (spawned h) ds, evs ++ [EvCreateTask (handler_id h)]).
Proof. unfold spawn_one. now intros ->. Qed.

Lemma spawn_one_keeps_present acc h k :
  contains k (fst acc) = true -> contains k (fst (spawn_one acc h)) = true.
Proof.
  destruct acc as [ds evs]; simpl. intro H.
  destruct (contains (handler_id h) ds); simpl; [exact H|].
  now apply contains_assign_mono.
Qed.

Lemma spawn_one_adds acc h :
  contains (handler_id h) (fst (spawn_one acc h)) = true.
Proof.
  destruct acc as [ds evs]; simpl.
  destruct (contains (handler_id h) ds) eqn:E; simpl; [exact E|].
  apply contains_assign_same.
Qed.

Lemma spawn_one_keeps_record acc h k d :
  lookup k (fst acc) = Some d -> lookup k (fst (spawn_one acc h)) = Some d.
Proof.
  destruct acc as [ds evs]; simpl. intro H.
  destruct (contains (handler_id h) ds) eqn:E; simpl; [exact H|].
  rewrite lookup_assign_other; [exact H|].
  destruct (String.eqb (handler_id h) k) eqn:N; [|reflexivity].
  apply String.eqb_eq in N; subst k.
  unfold contains in E. now rewrite H in E.
Qed.

Lemma spawn_fold_keeps_present handlers acc k :
  contains k (fst acc) = true ->
  contains k (fst (fold_left spawn_one handlers acc)) = true.
Proof.
  revert acc. induction handlers as [|h hs IH]; simpl; intros acc H; [exact H|].
  now apply IH, spawn_one_keeps_present.
Qed.

Lemma spawn_fold_keeps_record handlers acc k d :
  lookup k (fst acc) = Some d ->
  lookup k (fst (fold_left spawn_one handlers acc)) = Some d.
Proof.
  revert acc. induction handlers as [|h hs IH]; simpl; intros acc H; [exact H|].
  now apply IH, spawn_one_keeps_record.
Qed.

Lemma spawn_fold_all_present handlers acc :
  all_present handlers (fst (fold_left spawn_one handlers acc)).
Proof.
  revert acc. induction handlers as [|h hs IH]; simpl; intros acc.
  - constructor.
  - constructor; [|apply IH].
    apply spawn_fold_keeps_present, spawn_one_adds.
Qed.

Lemma spawn_fold_noop handlers ds evs :
  all_present handlers ds ->
  fold_left spawn_one handlers (ds, evs) = (ds, evs).
Proof.
  induction 1 as [|h hs Hh _ IH]; simpl; [reflexivity|].
  now rewrite Hh.
Qed.

Lemma spawn_with_body handlers daemons memory body :
  live_fresh_body memory = Some body ->
  spawn_resource_daemons handlers daemons memory =
  (fst (fold_left spawn_one handlers (daemons, [])),
   snd (fold_left spawn_one handlers (daemons, [])), inr []).
Proof.
  unfold spawn_resource_daemons. intros ->.
  now destruct (fold_left spawn_one handlers (daemons, [])).
Qed.

(** C4.  spawn is idempotent: with a live fresh body in the memory, a second
    call with the same handlers leaves the daemon table exactly as the first
    call left it and has no events at all (no task is created, no record
    inserted); the records that were in the table before the first call are
    still there unchanged; and both calls return the empty list of delays. *)
Theorem spawn_idempotent handlers daemons memory body :
  live_fresh_body memory = Some body ->
  let first := spawn_resource_daemons handlers daemons memory in
  let second := spawn_resource_daemons handlers (table_of first) memory in
  table_of second = table_of first
  /\ events_of second = []
  /\ count is_create (events_of second) = 0%nat
  /\ (forall id d, lookup id daemons = Some d ->
                   lookup id (table_of first) = Some d
                   /\ lookup id (table_of second) = Some d)
  /\ result_of first = inr []
  /\ result_of second = inr [].
Proof.
  intros Hb first second.
  assert (F : first = (fst (fold_left spawn_one handlers (daemons, [])),
                       snd (fold_left spawn_one handlers (daemons, [])), inr []))
    by (apply spawn_with_body with body; exact Hb).
  assert (P : all_present handlers (table_of first))
    by (rewrite F; apply spawn_fold_all_present).
  assert (S : second = (table_of first, [], inr [])).
  { unfold second. rewrite (spawn_with_body _ _ _ _ Hb).
    now rewrite (spawn_fold_noop _ _ _ P). }
  assert (K : forall id d, lookup id daemons = Some d ->
                           lookup id (table_of first) = Some d).
  { intros id d H. rewrite F. unfold table_of; simpl.
    now apply spawn_fold_keeps_record. }
  rewrite S. unfold table_of, events_of, result_of; simpl.
  repeat split; try reflexivity.
  - now apply K.
  - now apply K.
  - now rewrite F.
Qed.

Lemma spawn_idempotent_witness :
  let handlers := [IsDaemonHandler escalating_handler;
                   IsTimerHandler some_timer;
                   IsDaemonHandler escalating_handler] in
  let memory := mkMemory (Some "body"%string) "memo" 0 in
  let first := spawn_resource_daemons handlers [] memory in
  let second := spawn_resource_daemons handlers (table_of first) memory in
  table_of second = table_of first
  /\ events_of first = [EvCreateTask "fn"; EvCreateTask "tick"]
  /\ events_of second = [].
Proof.
  intros handlers memory first second.
  destruct (spawn_idempotent handlers [] memory "body"%string eq_refl)
    as (T & E & _).
  split; [exact T|split; [reflexivity|exact E]].
Defined.

(** C5.  Without a live fresh body, spawn raises its RuntimeError ("This is
    a bug") to the caller before anything else happens: no event (no
    stopper, no task), and the daemon table is the one it was given. *)
Theorem spawn_without_body handlers daemons memory :
  live_fresh_body memory = None ->
  let r := spawn_resource_daemons handlers daemons memory in
  result_of r = inl spawn_error
  /\ events_of r = []
  /\ table_of r = daemons.
Proof.
  intros H r. unfold r, spawn_resource_daemons. rewrite H.
  repeat split.
Qed.

Lemma spawn_without_body_witness :
  let r := spawn_resource_daemons [IsDaemonHandler escalating_handler] []
                                  (mkMemory None "memo" 0) in
  result_of r = inl spawn_error /\ events_of r = [] /\ table_of r = [].
Proof.
  exact (spawn_without_body [IsDaemonHandler escalating_handler] []
                            (mkMemory None "memo" 0) eq_refl).
Defined.

(** ** stop_resource_daemons *)



Lemma is_set_deleted clock r s :
  r <> RESOURCE_DELETED ->
  is_set r (set_reason clock RESOURCE_DELETED s) = is_set r s.
Proof.
  intro N. rewrite is_set_set_reason.
  destruct (reason_eqb r RESOURCE_DELETED) eqn:E; [|reflexivity].
  apply reason_eqb_eq in E. contradiction.
Qed.

Lemma after_await_unfinished tk d :
  tk_finished tk = false -> after_await tk d = d.
Proof. unfold after_await. now intros ->. Qed.

Lemma after_await_task tk d :
  done (task (after_await tk d)) = (done (task d) || tk_finished tk)%bool
  /\ cancels (task (after_await tk d)) = cancels (task d)
  /\ handler (after_await tk d) = handler d.
Proof.
  unfold after_await. destruct (tk_finished tk); simpl;
    rewrite ?orb_true_r, ?orb_false_r; auto.
Qed.

(** What the runner leaves on the record when it finishes: DONE, and
    nothing else. *)
Lemma after_await_stopper tk d :
  (tk_finished tk = true -> is_set DONE (stopper (after_await tk d)) = true)
  /\ (forall q, q <> DONE ->
                is_set q (stopper (after_await tk d)) = is_set q (stopper d))
  /\ (is_set_any (stopper d) = true ->
      when (stopper (after_await tk d)) = when (stopper d)).
Proof.
  unfold after_await. destruct (tk_finished tk); simpl.
  - split; [intros _; apply is_set_same|split].
    + intros q N. rewrite is_set_set_reason.
      destruct (reason_eqb q DONE) eqn:E; [|reflexivity].
      apply reason_eqb_eq in E. contradiction.
    + now intros ->.
  - split; [discriminate|auto].
Qed.

(** A turn of the loop on an unfinished daemon, once the phase is chosen. *)
Lemma flag_once_visit clock clock' id r d actions (cancelling : bool)
      (f : Daemon -> Daemon) delays :
  r <> RESOURCE_DELETED ->
  done (task d) = false ->
  (forall x, stopper (f x) = stopper x) ->
  (forall x, handler (f x) = handler x) ->
  (forall x, done (task (f x)) = done (task x)) ->
  (forall x, cancels (task (f x)) =
             if cancelling then S (cancels (task x)) else cancels (task x)) ->
  let d2 := with_stopper d (set_reason clock RESOURCE_DELETED (stopper d)) in
  phase_visit clock id d r actions cancelling delays
    (let '(d3, evs') := flag_once clock' id r d2 actions f in
     inr (d3, turn_prefix id ++ evs', delays)).
Proof.
  intros N D Fs Fh Fd Fc d2.
  unfold flag_once, phase_visit.
  assert (E : forall q, q <> RESOURCE_DELETED ->
                        is_set q (stopper d2) = is_set q (stopper d))
    by (intros q Q; simpl; now apply is_set_deleted).
  rewrite (E r N). destruct (is_set r (stopper d)) eqn:B.
  - exists d2, (turn_prefix id). rewrite app_nil_r.
    repeat split; try assumption; auto.
    now rewrite (E r N).
  - eexists _, _. split; [reflexivity|].
    rewrite Fs, Fh, Fd, Fc.
    cbn [with_stopper with_task stopper task handler d2].
    rewrite is_set_same, D.
    repeat split; try reflexivity.
    + rewrite when_set_reason, is_set_any_set_reason. reflexivity.
    + intros q Q1 Q2. rewrite is_set_set_reason.
      destruct (reason_eqb q r) eqn:Q; [apply reason_eqb_eq in Q; contradiction|].
      simpl. now apply is_set_deleted.
Qed.

Section Turn.

Variables (now clock : Z) (tk : tick) (id : DaemonId) (d : Daemon).
Variable h : ResourceDaemonHandler.
Hypothesis Hhandler : handler d = IsDaemonHandler h.
Hypothesis Hrunning : done (task d) = false.
Hypothesis Hstill : tk_finished tk = false.

Let age := stop_age now (stopper d).
Let res := stop_resource_daemon now clock tk id d.

Let not_graceful : Prop :=
  match cancellation_backoff h with Some b => b <= age | None => True end.

Lemma turn_unfolded : res =
  match deletion_deadlines (handler d) with
  | inl e => inl e
  | inr (backoff, timeout, polling) =>
      let d2 := with_stopper d (set_reason clock RESOURCE_DELETED (stopper d)) in
      let evs := turn_prefix id in
      let abandoned_or_polling :=
        match timeout with
        | Some _ =>
            let '(d3, evs') :=
              flag_once (tk_clock tk) id DAEMON_ABANDONED d2
                        [EvWarnOrphaned id; EvResourceWarning id]
                        (fun d => d) in
            inr (d3, evs ++ evs', [])
        | None => inr (d2, evs ++ [EvDebugPolling id polling], [polling])
        end in
      let forceful_or_later :=
        match timeout with
        | Some t =>
            if age <? t + py_or backoff 0 then
              let '(d3, evs') :=
                flag_once (tk_clock tk) id DAEMON_CANCELLED d2
                          [EvDebugCancelled id; EvCancelTask id]
                          (fun d => with_task d (cancel (task d))) in
              inr (d3, evs ++ evs', [t + py_or backoff 0 - age])
            else abandoned_or_polling
        | None => abandoned_or_polling
        end in
      match backoff with
      | Some b =>
          if age <? b then
            let '(d3, evs') :=
              flag_once (tk_clock tk) id DAEMON_SIGNALLED d2
                        [EvDebugSignalled id] (fun d => d) in
            inr (d3, evs ++ evs', [b - age])
          else forceful_or_later
      | None => forceful_or_later
      end
  end.
Proof.
  unfold res, stop_resource_daemon.
  destruct (deletion_deadlines (handler d)) as [e|[[backoff timeout] polling]];
    [reflexivity|].
  rewrite (after_await_unfinished _ _ Hstill).
  cbn [with_task with_stopper task handler stopper].
  rewrite Hrunning. reflexivity.
Qed.


Lemma turn_forceful t :
  cancellation_timeout h = Some t ->
  not_graceful ->
  age < t + py_or (cancellation_backoff h) 0 ->
  phase_visit clock id d DAEMON_CANCELLED
              [EvDebugCancelled id; EvCancelTask id] true
              [t + py_or (cancellation_backoff h) 0 - age] res.
Proof.
  intros Ht G L. rewrite turn_unfolded, Hhandler. unfold deletion_deadlines.
  rewrite Ht. cbv zeta.
  destruct (Z.ltb_spec age (t + py_or (cancellation_backoff h) 0)); [|lia].
  unfold not_graceful in G.
  destruct (cancellation_backoff h) as [b|].
  - destruct (Z.ltb_spec age b); [lia|].
    apply (flag_once_visit clock); auto; discriminate.
  - apply (flag_once_visit clock); auto; discriminate.
Qed.

Lemma turn_abandoned t :
  cancellation_timeout h = Some t ->
  not_graceful ->
  t + py_or (cancellation_backoff h) 0 <= age ->
  phase_visit clock id d DAEMON_ABANDONED
              [EvWarnOrphaned id; EvResourceWarning id] false [] res.
Proof.
  intros Ht G L. rewrite turn_unfolded, Hhandler. unfold deletion_deadlines.
  rewrite Ht. cbv zeta.
  destruct (Z.ltb_spec age (t + py_or (cancellation_backoff h) 0)); [lia|].
  unfold not_graceful in G.
  destruct (cancellation_backoff h) as [b|].
  - destruct (Z.ltb_spec age b); [lia|].
    apply (flag_once_visit clock); auto; discriminate.
  - apply (flag_once_visit clock); auto; discriminate.
Qed.

End Turn.

(** The loop takes the turns one after the other: the turns of [pre], then
    those of [post], each at the clock the turn before left. *)
Lemma stop_turn_supported now clock tk id d :
  match handler d with IsOtherHandler _ => False | _ => True end ->
  exists d' evs delays,
    stop_resource_daemon now clock tk id d = inr (d', evs, delays).
Proof.
  unfold stop_resource_daemon, flag_once.
  destruct (handler d) as [h|h|o]; [| |contradiction]; intros _; simpl;
    repeat match goal with
           | |- context [match ?t with _ => _ end] => destruct t
           end; eauto.
Qed.

Lemma stop_items_supported now env items :
  supported items ->
  forall clock, exists items' evs delays,
    stop_items now clock env items = (items', evs, inr delays).
Proof.
  induction 1 as [|[id d] rest Hd _ IH]; intro clock; simpl.
  - eauto.
  - destruct (stop_turn_supported now clock (env id) id d Hd)
      as (d' & evs & delays & ->).
    destruct (IH (tk_clock (env id))) as (rest' & evs' & delays' & ->).
    eauto.
Qed.

(** In a call of stop-for-deletion on a table of supported handlers, the
    daemon [id] gets exactly one turn, after the turns of the records
    before it and before those of the records after it, and what that turn
    contributes is part of what the call returns. *)
Lemma stop_items_turn now env pre id d post :
  supported (pre ++ (id, d) :: post) ->
  forall clock,
  exists pre' evs1 delays1 d' evs delays post' evs2 delays2,
    stop_resource_daemon now (clock_after clock env pre) (env id) id d
    = inr (d', evs, delays)
    /\ stop_items now clock env pre = (pre', evs1, inr delays1)
    /\ stop_items now (tk_clock (env id)) env post = (post', evs2, inr delays2)
    /\ stop_items now clock env (pre ++ (id, d) :: post)
       = (pre' ++ (id, d') :: post', evs1 ++ evs ++ evs2,
          inr (delays1 ++ delays ++ delays2)).
Proof.
  induction pre as [|[k d0] pre IH]; intros S clock.
  - simpl in *. inversion S as [|? ? Hd Hpost]; subst.
    destruct (stop_turn_supported now clock (env id) id d Hd)
      as (d' & evs & delays & E).
    destruct (stop_items_supported now env post Hpost (tk_clock (env id)))
      as (post' & evs2 & delays2 & E2).
    exists [], [], [], d', evs, delays, post', evs2, delays2.
    rewrite E, E2. repeat split; reflexivity.
  - simpl in S. inversion S as [|? ? Hd0 Hrest]; subst.
    destruct (stop_turn_supported now clock (env k) k d0 Hd0)
      as (d0' & evs0 & delays0 & E0).
    destruct (IH Hrest (tk_clock (env k)))
      as (pre' & evs1 & delays1 & d' & evs & delays & post' & evs2 & delays2
          & E & Ep & Eq & E').
    exists ((k, d0') :: pre'), (evs0 ++ evs1), (delays0 ++ delays1),
      d', evs, delays, post', evs2, delays2.
    split; [exact E|].
    simpl. rewrite E0, Ep, E'. rewrite <- !app_assoc.
    repeat split; auto.
Qed.

(** DAEMON_CANCELLED and [task.cancel()] go together. *)
Lemma spawned_cancel_follows_flag h : cancel_follows_flag (spawned h).
Proof. unfold cancel_follows_flag; simpl. discriminate. Qed.

Lemma stop_turn_cancel_follows_flag now clock tk id d d' evs delays :
  cancel_follows_flag d ->
  stop_resource_daemon now clock tk id d = inr (d', evs, delays) ->
  cancel_follows_flag d'.
Proof.
  unfold cancel_follows_flag, stop_resource_daemon, flag_once. intros C.
  destruct (deletion_deadlines (handler d)) as [e|[[backoff timeout] polling]];
    [discriminate|].
  open_awaits;
    cbn [with_task with_stopper task handler stopper cancels done];
    intro E; crack;
    cbn [with_task with_stopper task handler stopper cancel cancels done];
    rewrite ?is_set_set_reason; simpl; try (intros; lia); exact C.
Qed.

Lemma stop_daemon_cancel_follows_flag env id d d' evs :
  cancel_follows_flag d ->
  stop_daemon env id d = inr (d', evs) ->
  cancel_follows_flag d'.
Proof.
  unfold cancel_follows_flag, stop_daemon, set_on. intros C.
  destruct (exit_deadlines (handler d)) as [e|[backoff timeout]];
    [discriminate|].
  open_awaits;
    cbn [with_task with_stopper task handler stopper cancels done];
    intro E; crack;
    cbn [with_task with_stopper task handler stopper cancel cancels done];
    rewrite ?is_set_set_reason; simpl; try (intros; lia); exact C.
Qed.



(** The escalation scenario on a daemon that ignores its stopper, with
    [backoff = 5] and [timeout = 10], visited at 100, 105, 107, 115 and 116:
    signalled with delay 5, cancelled with delay 10, nothing new with delay
    8, abandoned without delay, nothing new without delay. *)
Example escalation_scenario :
  let v1 := stop_resource_daemons 100 (never_finishes 100)
              [("fn"%string, spawned (IsDaemonHandler escalating_handler))] in
  let v2 := stop_resource_daemons 105 (never_finishes 105) (table_of v1) in
  let v3 := stop_resource_daemons 107 (never_finishes 107) (table_of v2) in
  let v4 := stop_resource_daemons 115 (never_finishes 115) (table_of v3) in
  let v5 := stop_resource_daemons 116 (never_finishes 116) (table_of v4) in
  (events_of v1, result_of v1) =
    (turn_prefix "fn" ++ [EvSet "fn" DAEMON_SIGNALLED; EvDebugSignalled "fn"],
     inr [5])
  /\ (events_of v2, result_of v2) =
       (turn_prefix "fn" ++ [EvSet "fn" DAEMON_CANCELLED;
                             EvDebugCancelled "fn"; EvCancelTask "fn"],
        inr [10])
  /\ (events_of v3, result_of v3) = (turn_prefix "fn", inr [8])
  /\ (events_of v4, result_of v4) =
       (turn_prefix "fn" ++ [EvSet "fn" DAEMON_ABANDONED;
                             EvWarnOrphaned "fn"; EvResourceWarning "fn"],
        inr [])
  /\ (events_of v5, result_of v5) = (turn_prefix "fn", inr []).
Proof. repeat split. Qed.

(** C2.  What the code does with [cancellation_backoff = 0] and
    [cancellation_timeout = 0] on a freshly spawned daemon that ignores its
    stopper: the first turn of stop-for-deletion abandons it at once
    (DAEMON_ABANDONED, the warning and the resource-leak warning, no delay)
    and neither sets DAEMON_CANCELLED nor cancels the task; a second turn
    at a later time does nothing beyond its prefix.  The task is never
    cancelled. *)
Theorem zero_deadlines_abandon_without_cancel h id now tk1 now2 clock2 tk2 :
  cancellation_backoff h = Some 0 ->
  cancellation_timeout h = Some 0 ->
  tk_finished tk1 = false ->
  tk_finished tk2 = false ->
  now <= now2 ->
  exists d1 d2,
    stop_resource_daemon now now tk1 id (spawned (IsDaemonHandler h)) =
      inr (d1, turn_prefix id ++ [EvSet id DAEMON_ABANDONED;
                                  EvWarnOrphaned id; EvResourceWarning id], [])
    /\ is_set DAEMON_ABANDONED (stopper d1) = true
    /\ is_set DAEMON_CANCELLED (stopper d1) = false
    /\ cancels (task d1) = 0%nat
    /\ stop_resource_daemon now2 clock2 tk2 id d1 =
         inr (d2, turn_prefix id, [])
    /\ is_set DAEMON_CANCELLED (stopper d2) = false
    /\ cancels (task d2) = 0%nat.
Proof.
  intros Hb Ht T1 T2 L.
  set (d0 := spawned (IsDaemonHandler h)).
  assert (O : 0 + py_or (cancellation_backoff h) 0 = 0) by now rewrite Hb.
  destruct (turn_abandoned now now tk1 id d0 h eq_refl eq_refl T1 0 Ht)
    as (d1 & evs1 & R1 & S1 & D1 & H1 & W1 & F1 & E1).
  { rewrite Hb. unfold d0; simpl. unfold stop_age; simpl. lia. }
  { rewrite O. unfold d0; simpl. unfold stop_age; simpl. lia. }
  simpl in E1. destruct E1 as [-> C1].
  assert (A : 0 <= stop_age now2 (stopper d1)).
  { unfold stop_age. rewrite W1. simpl. unfold py_or.
    destruct (Z.eqb_spec now 0); lia. }
  destruct (turn_abandoned now2 clock2 tk2 id d1 h H1 D1 T2 0 Ht)
    as (d2 & evs2 & R2 & S2 & D2 & H2 & W2 & F2 & E2).
  { rewrite Hb. exact A. }
  { rewrite O. exact A. }
  rewrite S1 in E2. destruct E2 as [-> C2].
  exists d1, d2. rewrite R1, R2.
  assert (N1 : is_set DAEMON_CANCELLED (stopper d1) = false)
    by (rewrite F1; [reflexivity| |]; discriminate).
  repeat split; auto.
  - rewrite F2; [exact N1| |]; discriminate.
  - now rewrite C2, C1.
Qed.

Lemma zero_deadlines_abandon_without_cancel_witness :
  exists d1 d2,
    stop_resource_daemon 100 100 (mkTick 100 false) "fn"
                         (spawned (IsDaemonHandler zero_handler)) =
      inr (d1, turn_prefix "fn" ++ [EvSet "fn" DAEMON_ABANDONED;
                                    EvWarnOrphaned "fn"; EvResourceWarning "fn"], [])
    /\ is_set DAEMON_ABANDONED (stopper d1) = true
    /\ is_set DAEMON_CANCELLED (stopper d1) = false
    /\ cancels (task d1) = 0%nat
    /\ stop_resource_daemon 101 101 (mkTick 101 false) "fn" d1 =
         inr (d2, turn_prefix "fn", [])
    /\ is_set DAEMON_CANCELLED (stopper d2) = false
    /\ cancels (task d2) = 0%nat.
Proof.
  apply (zero_deadlines_abandon_without_cancel
           zero_handler "fn" 100 (mkTick 100 false) 101 101 (mkTick 101 false));
    try reflexivity; lia.
Defined.

Lemma reason_eqb_neq q r : q <> r -> reason_eqb q r = false.
Proof.
  intro N. destruct (reason_eqb q r) eqn:E; [|reflexivity].
  apply reason_eqb_eq in E. contradiction.
Qed.

(** What every turn does, whatever its phase: the handler of the record
    stays, RESOURCE_DELETED is set, and at most one delay is appended. *)
Lemma stop_turn_frame now clock tk id d d' evs delays :
  stop_resource_daemon now clock tk id d = inr (d', evs, delays) ->
  handler d' = handler d
  /\ is_set RESOURCE_DELETED (stopper d') = true
  /\ (List.length delays <= 1)%nat.
Proof.
  unfold stop_resource_daemon, flag_once.
  destruct (deletion_deadlines (handler d)) as [e|[[backoff timeout] polling]];
    [discriminate|].
  open_awaits;
    cbn [with_task with_stopper task handler stopper cancels done];
    intro E; crack;
    cbn [with_task with_stopper task handler stopper List.length];
    rewrite ?is_set_set_reason; simpl; repeat split; auto; lia.
Qed.

Lemma stop_items_marks now env items :
  supported items ->
  forall clock, exists items' evs delays,
    stop_items now clock env items = (items', evs, inr delays)
    /\ keys items' = keys items
    /\ map (fun item => handler (snd item)) items'
       = map (fun item => handler (snd item)) items
    /\ all_deleted items'
    /\ (List.length delays <= List.length items)%nat.
Proof.
  induction 1 as [|[id d] rest Hd _ IH]; intro clock; simpl.
  - exists [], [], []. repeat split; constructor.
  - destruct (stop_turn_supported now clock (env id) id d Hd)
      as (d' & evs & delays & E).
    destruct (stop_turn_frame _ _ _ _ _ _ _ _ E) as (F1 & F2 & F3).
    destruct (IH (tk_clock (env id)))
      as (rest' & evs' & delays' & E' & K & Hs & A & L).
    rewrite E, E'. eexists _, _, _. split; [reflexivity|].
    simpl. rewrite length_app. unfold keys in *. simpl.
    repeat split; try congruence; [constructor; assumption|lia].
Qed.

(** ** stop_resource_daemons, call by call *)





Lemma supported_handlers items : forall items',
  map (fun item => handler (snd item)) items'
  = map (fun item => handler (snd item)) items ->
  supported items -> supported items'.
Proof.
  unfold supported.
  induction items as [|x items IH]; intros [|y items'] E S; simpl in E;
    try discriminate; constructor; inversion S; subst; injection E as E1 E2.
  - now rewrite E1.
  - now apply IH.
Qed.


(** A call on a table of supported handlers, seen from one of its records:
    the turns of the records before it, its own turn, the turns of the
    records after it. *)
Lemma stop_call_turn now env pre id d post :
  supported (pre ++ (id, d) :: post) ->
  exists pre' evs1 delays1 d' evs delays post' evs2 delays2,
    stop_resource_daemon now (clock_after now env pre) (env id) id d
    = inr (d', evs, delays)
    /\ stop_resource_daemons now env pre = (pre', evs1, inr delays1)
    /\ stop_items now (tk_clock (env id)) env post = (post', evs2, inr delays2)
    /\ stop_resource_daemons now env (pre ++ (id, d) :: post)
       = (pre' ++ (id, d') :: post', evs1 ++ evs ++ evs2,
          inr (delays1 ++ delays ++ delays2))
    /\ keys pre' = keys pre
    /\ keys post' = keys post
    /\ supported (pre' ++ (id, d') :: post').
Proof.
  intro S. unfold stop_resource_daemons.
  destruct (stop_items_turn now env pre id d post S now)
    as (pre' & evs1 & delays1 & d' & evs & delays & post' & evs2 & delays2
        & Et & Ep & Eq & Ec).
  exists pre', evs1, delays1, d', evs, delays, post', evs2, delays2.
  assert (S' := S). apply Forall_app in S'. destruct S' as [S1 S2].
  inversion S2 as [|? ? Hd S3]; subst.
  destruct (stop_items_marks now env pre S1 now)
    as (x1 & x2 & x3 & E1 & K1 & H1 & _).
  rewrite Ep in E1. injection E1 as <- _ _.
  destruct (stop_items_marks now env post S3 (tk_clock (env id)))
    as (y1 & y2 & y3 & E2 & K2 & H2 & _).
  rewrite Eq in E2. injection E2 as <- _ _.
  destruct (stop_turn_frame _ _ _ _ _ _ _ _ Et) as (Hh & _).
  repeat split; auto.
  apply supported_handlers with (items := pre ++ (id, d) :: post); [|exact S].
  rewrite !map_app. simpl. congruence.
Qed.

(** What holds of the turn of a record holds of its turn in every call. *)
Lemma visits_turn now env pre id d post
      (turn : Daemon -> list event -> list Z -> Prop) :
  supported (pre ++ (id, d) :: post) ->
  (forall d' evs delays,
      stop_resource_daemon now (clock_after now env pre) (env id) id d
      = inr (d', evs, delays) ->
      turn d' evs delays) ->
  visits now env pre id d post turn.
Proof.
  intros S T.
  destruct (stop_call_turn now env pre id d post S)
    as (pre' & evs1 & delays1 & d' & evs & delays & post' & evs2 & delays2
        & Et & Ep & _ & Ec & _ & Kq & _).
  exists pre', evs1, delays1, d', evs, delays, post', evs2, delays2.
  repeat split; auto.
Qed.













(** ** stop_daemon *)

Lemma exit_deadlines_none h :
  no_deadlines h -> exit_deadlines h = inr (None, None).
Proof.
  destruct h as [d|t|o]; simpl.
  - now intros [-> ->].
  - reflexivity.
  - contradiction.
Qed.

(** C10.  On operator exit, a daemon whose handler has neither deadline
    (every timer handler is such a one) and whose task is still unfinished
    after the single yield that follows OPERATOR_EXITING is abandoned at
    once: DAEMON_ABANDONED is set, the warning is logged and the
    resource-leak warning issued; the task is neither waited for nor
    cancelled. *)
Theorem exit_without_deadlines_abandons env id d :
  no_deadlines (handler d) ->
  done (task d) = false ->
  tk_finished (on_yield env) = false ->
  (forall t, no_deadlines (IsTimerHandler t))
  /\ exists d',
      stop_daemon env id d =
        inr (d', [EvSet id OPERATOR_EXITING; EvYield;
                  EvSet id DAEMON_ABANDONED; EvWarnOrphaned id;
                  EvResourceWarning id])
      /\ is_set OPERATOR_EXITING (stopper d') = true
      /\ is_set DAEMON_ABANDONED (stopper d') = true
      /\ is_set DAEMON_SIGNALLED (stopper d') = is_set DAEMON_SIGNALLED (stopper d)
      /\ is_set DAEMON_CANCELLED (stopper d') = is_set DAEMON_CANCELLED (stopper d)
      /\ done (task d') = false
      /\ cancels (task d') = cancels (task d).
Proof.
  intros N D T. split; [intro t; exact I|].
  unfold stop_daemon. rewrite (exit_deadlines_none _ N).
  rewrite (after_await_unfinished _ _ T).
  cbn [set_on with_task with_stopper task stopper handler].
  rewrite D. cbn [negb app].
  eexists. split; [reflexivity|].
  cbn [set_on with_task with_stopper task stopper handler].
  rewrite !is_set_set_reason. simpl.
  repeat split; assumption.
Qed.

Lemma exit_without_deadlines_abandons_witness :
  exists d',
    stop_daemon (mkExitEnv 100 (mkTick 100 false) (mkTick 100 false)
                           (mkTick 100 false))
                "tick" (spawned (IsTimerHandler some_timer)) =
      inr (d', [EvSet "tick" OPERATOR_EXITING; EvYield;
                EvSet "tick" DAEMON_ABANDONED; EvWarnOrphaned "tick";
                EvResourceWarning "tick"])
    /\ is_set DAEMON_ABANDONED (stopper d') = true
    /\ cancels (task d') = 0%nat.
Proof.
  destruct (exit_without_deadlines_abandons
              (mkExitEnv 100 (mkTick 100 false) (mkTick 100 false)
                         (mkTick 100 false))
              "tick" (spawned (IsTimerHandler some_timer)) I eq_refl eq_refl)
    as (_ & d' & R & _ & A & _ & _ & _ & C).
  exists d'. repeat split; assumption.
Defined.

(** With both deadlines at zero, [stop_daemon] signals, cancels and abandons
    in one call: the task is cancelled before it is given up. *)
Example exit_with_zero_deadlines :
  stop_daemon (mkExitEnv 100 (mkTick 100 false) (mkTick 100 false)
                         (mkTick 100 false))
              "fn" (spawned (IsDaemonHandler zero_handler)) =
  inr (mkDaemon (mkStopper [DAEMON_ABANDONED; DAEMON_CANCELLED;
                            DAEMON_SIGNALLED; OPERATOR_EXITING] (Some 100))
                (IsDaemonHandler zero_handler) (mkTask false 1),
       [EvSet "fn" OPERATOR_EXITING; EvYield;
        EvSet "fn" DAEMON_SIGNALLED; EvDebugSignalled "fn"; EvWaitTask "fn" 0;
        EvSet "fn" DAEMON_CANCELLED; EvDebugCancelled "fn"; EvCancelTask "fn";
        EvWaitTask "fn" 0;
        EvSet "fn" DAEMON_ABANDONED; EvWarnOrphaned "fn"; EvResourceWarning "fn"]).
Proof. reflexivity. Qed.

(** ** The runner *)

Lemma finally_done_finished c :
  finished (finally_done c) -> done_is_set (finally_done c).
Proof.
  unfold finished, done_is_set, finally_done.
  destruct c as [[h a|h a|raised] x]; simpl; intros [r E]; try discriminate.
  apply is_set_same.
Qed.

Lemma fst_finally_done c : fst (finally_done c) = fst c.
Proof. destruct c as [[h a|h a|raised] x]; reflexivity. Qed.

Lemma finally_done_keeps c :
  x_fired (snd (finally_done c)) = x_fired (snd c)
  /\ x_patch (snd (finally_done c)) = x_patch (snd c)
  /\ (is_set_any (x_stopper (snd c)) = true ->
      is_set_any (x_stopper (snd (finally_done c))) = true).
Proof.
  destruct c as [[h a|h a|raised] x]; simpl; repeat split; auto.
  intros _. apply is_set_any_set_reason.
Qed.

Lemma runner_start_finished handler x :
  finished (runner_start handler x) -> done_is_set (runner_start handler x).
Proof. apply finally_done_finished. Qed.

Lemma runner_resume_finished c r :
  (finished c -> done_is_set c) ->
  finished (runner_resume c r) -> done_is_set (runner_resume c r).
Proof.
  unfold runner_resume. intro H.
  destruct (fst c) eqn:E; try apply finally_done_finished.
  intros _. apply H. exists raised. exact E.
Qed.

Lemma runner_fold_finished rs c :
  (finished c -> done_is_set c) ->
  finished (fold_left runner_resume rs c) ->
  done_is_set (fold_left runner_resume rs c).
Proof.
  revert c. induction rs as [|r rs IH]; simpl; intros c H; [exact H|].
  apply IH. now apply runner_resume_finished.
Qed.

(** C3.  Whatever the handler is (daemon, timer, or neither) and however
    the awaits of the runner end (returning, raising an error such as a
    failed patch, or raising the cancellation of the task), a runner that
    has left its coroutine has DONE set on its stopper. *)
Theorem runner_sets_done handler x rs :
  finished (_runner handler x rs) -> done_is_set (_runner handler x rs).
Proof.
  unfold _runner. apply runner_fold_finished, runner_start_finished.
Qed.

Lemma runner_sets_done_witness :
  done_is_set (_runner (IsDaemonHandler plain_daemon) (initial_ctx 0 0)
                       [raises 3 0 CancelledError]).
Proof.
  apply (runner_sets_done (IsDaemonHandler plain_daemon) (initial_ctx 0 0)
                          [raises 3 0 CancelledError]).
  exists (Some CancelledError). reflexivity.
Defined.

(** The exit paths of the runner, one by one: each leaves the coroutine
    with the given result and with DONE set. *)
Example daemon_returns :
  _runner (IsDaemonHandler plain_daemon) (initial_ctx 0 0)
          [succeeds 2 0 []; wakes 2 0] =
  (Finished None, mkCtx 2 0 (mkStopper [DONE] (Some 2)) false [0]).
Proof. reflexivity. Qed.

Example daemon_patch_fails :
  _runner (IsDaemonHandler plain_daemon) (initial_ctx 0 0)
          [mkResume 2 0 [] Returns (mkState true None []) true;
           raises 3 0 (OtherError "patching failed")] =
  (Finished (Some (OtherError "patching failed")),
   mkCtx 3 0 (mkStopper [DONE] (Some 3)) true [0]).
Proof. reflexivity. Qed.

Example timer_is_cancelled :
  _runner (IsTimerHandler sharp_timer) (initial_ctx 0 0)
          [succeeds 2 0 []; raises 4 0 CancelledError] =
  (Finished (Some CancelledError),
   mkCtx 4 0 (mkStopper [DONE] (Some 4)) false [0]).
Proof. reflexivity. Qed.

Example timer_returns_on_request :
  _runner (IsTimerHandler sharp_timer) (initial_ctx 0 0)
          [succeeds 2 0 [RESOURCE_DELETED]; wakes 2 0] =
  (Finished None,
   mkCtx 2 0 (mkStopper [DONE; RESOURCE_DELETED] (Some 2)) false [0]).
Proof. reflexivity. Qed.

Example other_handler_raises :
  _runner (IsOtherHandler "x") (initial_ctx 0 0) [] =
  (Finished (Some runner_error),
   mkCtx 0 0 (mkStopper [DONE] (Some 0)) false []).
Proof. reflexivity. Qed.

(** The bodies never touch the stopper: it is what the resumption found. *)
Lemma daemon_start_stopper h x :
  x_stopper (snd (daemon_start h x)) = x_stopper x.
Proof. unfold daemon_start, daemon_loop. split_cases. Qed.

Lemma timer_start_stopper h x :
  x_stopper (snd (timer_start h x)) = x_stopper x.
Proof.
  unfold timer_start, timer_loop, timer_gate, timer_exit_or, timer_fire.
  split_cases.
Qed.

Lemma daemon_resume_stopper h a x r :
  x_stopper (snd (daemon_resume h a x r)) = x_stopper (observe x r).
Proof. unfold daemon_resume, daemon_loop. split_cases. Qed.

Lemma timer_resume_stopper h a x r :
  x_stopper (snd (timer_resume h a x r)) = x_stopper (observe x r).
Proof.
  unfold timer_resume, timer_schedule, timer_idle_wait, timer_loop,
    timer_gate, timer_exit_or, timer_fire, py_mod.
  split_cases.
Qed.

Lemma is_set_set_all_other clock q rs s :
  existsb (reason_eqb q) rs = false ->
  is_set q (set_all clock rs s) = is_set q s.
Proof.
  unfold set_all. revert s.
  induction rs as [|r rs IH]; simpl; intros s H; [reflexivity|].
  apply orb_false_iff in H. destruct H as [H1 H2].
  rewrite IH by exact H2. rewrite is_set_set_reason. now rewrite H1.
Qed.

Lemma finally_done_awaiting c :
  awaiting (finally_done c) ->
  x_stopper (snd (finally_done c)) = x_stopper (snd c).
Proof.
  unfold awaiting, finally_done. destruct c as [[h a|h a|raised] x]; simpl;
    intros H; try reflexivity. contradiction.
Qed.

(** Before its exit the runner does not set DONE: while it is awaiting, DONE
    is set only if it was set at the start or by somebody else. *)
Lemma runner_done_only_at_exit handler x rs :
  is_set DONE (x_stopper x) = false ->
  Forall (fun r => existsb (reason_eqb DONE) (r_set r) = false) rs ->
  awaiting (_runner handler x rs) ->
  is_set DONE (x_stopper (snd (_runner handler x rs))) = false.
Proof.
  intros Hx Hrs. unfold _runner.
  assert (S : awaiting (runner_start handler x) ->
              is_set DONE (x_stopper (snd (runner_start handler x))) = false).
  { intro A. unfold runner_start in *. rewrite finally_done_awaiting by exact A.
    destruct handler as [h|h|o]; simpl;
      rewrite ?daemon_start_stopper, ?timer_start_stopper; exact Hx. }
  revert S. generalize (runner_start handler x) as c.
  induction Hrs as [|r rs Hr _ IH]; simpl; intros c S; [exact S|].
  apply IH. intro A. unfold runner_resume in *.
  destruct c as [[h a|h a|raised] x0]; simpl in *; try contradiction.
  - rewrite finally_done_awaiting by exact A.
    rewrite daemon_resume_stopper; simpl.
    rewrite is_set_set_all_other by exact Hr. now apply S.
  - rewrite finally_done_awaiting by exact A.
    rewrite timer_resume_stopper; simpl.
    rewrite is_set_set_all_other by exact Hr. now apply S.
Qed.

(** ** The timer and its stopper *)

(** At these awaits a set stopper ends the timer: the sleep returns, the
    loop condition fails, the handler is not invoked again. *)
Lemma timer_stops_after_sleep h a x r :
  match a with
  | TInitialDelay _ | TRetrySleep _ _
  | TSharpSleep _ _ | TIntervalSleep _ _ => True
  | TIdleGate _ _ => idle h <> None
  | _ => False
  end ->
  r_completion r = Returns ->
  is_set_any (x_stopper (observe x r)) = true ->
  timer_resume h a x r = (Finished None, observe x r).
Proof.
  intros A R S. unfold timer_resume. rewrite R.
  destruct a; try contradiction;
    unfold timer_loop, timer_gate, timer_exit_or; rewrite S; simpl;
    try reflexivity.
  destruct (idle h); [reflexivity|contradiction].
Qed.

(** The wait of line 429 does not look at the stopper: as long as the
    awaits return and no watch event moves [idle_reset_time] past
    [started], the runner stays in that loop, whatever the stopper is. *)
Lemma idle_wait_spins h idl st started rs :
  Forall (fun r => r_completion r = Returns
                   /\ r_idle_reset_time r <= started) rs ->
  forall x, exists x',
    fold_left runner_resume rs (TimerAwaits h (TIdleWait idl st started), x)
    = (TimerAwaits h (TIdleWait idl st started), x')
    /\ x_fired x' = x_fired x
    /\ (is_set_any (x_stopper x) = true -> is_set_any (x_stopper x') = true).
Proof.
  induction 1 as [|r rs [R L] _ IH]; intro x; simpl.
  - exists x. auto.
  - unfold runner_resume at 2. simpl. unfold timer_resume. rewrite R.
    unfold timer_idle_wait. simpl.
    destruct (Z.leb_spec (r_idle_reset_time r) started); [|lia].
    simpl. destruct (IH (observe x r)) as (x' & E & F & S).
    exists x'. split; [exact E|]. split; [exact F|].
    intro Sx. apply S. simpl. now apply is_set_any_set_all.
Qed.

(** C9.  The code at the failing input: an idle-only timer ([idle = 3], no
    interval) fires at 7, the resource is deleted while the handler runs,
    the handler succeeds at 8, and no watch event follows.  However often
    the sleep of line 430 returns afterwards, and whenever, the runner is
    still in the loop of line 429: the stopper is set, the handler is not
    invoked again, but the runner has not returned and DONE is not set. *)
Theorem idle_only_timer_ignores_stopper (wakeups : list Z) :
  let c := _runner (IsTimerHandler idle_only_timer) (initial_ctx 7 0)
                   (succeeds 8 0 [RESOURCE_DELETED]
                    :: map (fun t => wakes t 0) wakeups) in
  fst c = TimerAwaits idle_only_timer (TIdleWait 3 (mkState true None []) 7)
  /\ is_set_any (x_stopper (snd c)) = true
  /\ x_fired (snd c) = [7]
  /\ ~ finished c
  /\ is_set DONE (x_stopper (snd c)) = false.
Proof.
  intro c.
  assert (A : fst c = TimerAwaits idle_only_timer
                        (TIdleWait 3 (mkState true None []) 7)
              /\ is_set_any (x_stopper (snd c)) = true
              /\ x_fired (snd c) = [7]);
    [|destruct A as (A1 & A2 & A3); repeat split; auto;
      [intros [raised Hf]; congruence|
       apply runner_done_only_at_exit;
       [reflexivity| |unfold awaiting; fold c; now rewrite A1];
       constructor; [reflexivity|];
       apply Forall_forall; intros r Hr; apply in_map_iff in Hr;
       destruct Hr as (t & <- & _); reflexivity]].
  unfold c, _runner. simpl fold_left.
  set (x1 := mkCtx 8 0 (mkStopper [RESOURCE_DELETED] (Some 8)) false [7]).
  change (runner_resume _ _)
    with (TimerAwaits idle_only_timer (TIdleWait 3 (mkState true None []) 7), x1).
  destruct (idle_wait_spins idle_only_timer 3 (mkState true None []) 7
              (map (fun t => wakes t 0) wakeups)) with (x := x1)
    as (x' & E & F & S).
  { apply Forall_forall. intros r Hr. apply in_map_iff in Hr.
    destruct Hr as (t & <- & _). simpl. split; [reflexivity|lia]. }
  rewrite E. simpl. repeat split; auto.
Qed.

(** ** Sharp timers *)






Section Grid.

Variables (h : ResourceTimerHandler) (i : Z).
Hypothesis Hinterval : interval h = Some i.
Hypothesis Hsharp : sharp h = true.
Hypothesis Hidle : idle h = None.
Hypothesis Hpos : 0 < i.






End Grid.




(** The scenario of the sharp timer: interval 5, a handler that takes 2.
    The sharp timer asks for a sleep of 3 and fires at 0, 5 and 10; the
    regular one asks for a sleep of 5 and fires at 0, 7 and 14. *)
Example sharp_timer_scenario :
  fst (_runner (IsTimerHandler sharp_timer) (initial_ctx 0 0)
               [succeeds 2 0 []]) =
    TimerAwaits sharp_timer (TSharpSleep 3 (mkState true None []))
  /\ punctual_run (runner_start (IsTimerHandler sharp_timer) (initial_ctx 0 0))
                  [succeeds 2 0 []; wakes 5 0; succeeds 7 0 []; wakes 10 0]
  /\ x_fired (snd (_runner (IsTimerHandler sharp_timer) (initial_ctx 0 0)
                           [succeeds 2 0 []; wakes 5 0;
                            succeeds 7 0 []; wakes 10 0])) = [0; 5; 10]
  /\ fst (_runner (IsTimerHandler regular_timer) (initial_ctx 0 0)
                  [succeeds 2 0 []]) =
       TimerAwaits regular_timer (TIntervalSleep 5 (mkState true None []))
  /\ x_fired (snd (_runner (IsTimerHandler regular_timer) (initial_ctx 0 0)
                           [succeeds 2 0 []; wakes 7 0;
                            succeeds 9 0 []; wakes 14 0])) = [0; 7; 14].
Proof.
  repeat split; simpl; auto; lia.
Qed.

(** With [interval = 0] the modulo has no value: the runner of a sharp
    timer leaves with ZeroDivisionError after the first success. *)
Example sharp_timer_zero_interval :
  _runner (IsTimerHandler (mkTimerHandler "tick" None (Some 0) None true))
          (initial_ctx 0 0) [succeeds 2 0 []] =
  (Finished (Some ZeroDivisionError),
   mkCtx 2 0 (mkStopper [DONE] (Some 2)) false [0]).
Proof. reflexivity. Qed.

(** * Further properties *)

(** ** stop_resource_daemons, turn by turn *)

(** The boolean tests of the hypotheses, as propositions for [lia]. *)
Ltac zify_tests :=
  repeat match goal with
         | H : (_ <? _) = true |- _ => apply Z.ltb_lt in H
         | H : (_ <? _) = false |- _ => apply Z.ltb_ge in H
         | H : (_ <=? _) = true |- _ => apply Z.leb_le in H
         | H : (_ <=? _) = false |- _ => apply Z.leb_gt in H
         | H : (_ =? _) = true |- _ => apply Z.eqb_eq in H
         | H : (_ =? _) = false |- _ => apply Z.eqb_neq in H
         end.

Lemma py_or_polling p :
  match p with Some v => 0 <= v | None => True end ->
  0 < py_or p DAEMON_POLLING_INTERVAL.
Proof.
  unfold py_or, DAEMON_POLLING_INTERVAL. destruct p as [v|]; [|lia].
  intro H. destruct (Z.eqb_spec v 0); lia.
Qed.

(** The turn on a daemon that is finished when the turn looks at it. *)
Lemma finished_turn now clock tk id d :
  is_supported (handler d) ->
  (done (task d) || tk_finished tk)%bool = true ->
  exists d',
    stop_resource_daemon now clock tk id d = inr (d', turn_prefix id, [])
    /\ done (task d') = true
    /\ cancels (task d') = cancels (task d)
    /\ (forall q, q <> RESOURCE_DELETED -> q <> DONE ->
                  is_set q (stopper d') = is_set q (stopper d))
    /\ (tk_finished tk = true -> is_set DONE (stopper d') = true)
    /\ (tk_finished tk = false ->
        is_set DONE (stopper d') = is_set DONE (stopper d)).
Proof.
  intros S F. unfold stop_resource_daemon.
  set (d1 := with_stopper d (set_reason clock RESOURCE_DELETED (stopper d))).
  destruct (after_await_task tk d1) as (A1 & A2 & A3).
  destruct (after_await_stopper tk d1) as (A4 & A5 & _).
  assert (R : exists polling,
             deletion_deadlines (handler d) = inr polling).
  { destruct (handler d); [| |contradiction]; simpl; eauto. }
  destruct R as ([[backoff timeout] polling] & ->).
  rewrite A1. cbn [d1 with_stopper task]. rewrite F.
  eexists. split; [reflexivity|].
  rewrite A1, A2. cbn [d1 with_stopper task]. rewrite F.
  repeat split; auto.
  - intros q Q1 Q2. rewrite A5 by exact Q2. now apply is_set_deleted.
  - intro T. rewrite (after_await_unfinished _ _ T).
    apply is_set_deleted. discriminate.
Qed.

(** X1.  In every call of stop-for-deletion on a table of daemon and timer
    handlers, a daemon whose task is finished when its turn looks at it
    (before the call or during the yield) is left alone, whether its
    handler is a daemon handler or a timer handler and whatever its age:
    the turn sets RESOURCE_DELETED and nothing else, logs nothing, cancels
    nothing and adds no delay.  DONE is on the record afterwards if the
    task finished during the yield (the runner set it on its way out), and
    as it was before otherwise. *)
Theorem finished_daemon_is_left_alone now env pre id d post :
  supported (pre ++ (id, d) :: post) ->
  (done (task d) || tk_finished (env id))%bool = true ->
  visits now env pre id d post
    (fun d' evs delays =>
       evs = turn_prefix id
       /\ delays = []
       /\ done (task d') = true
       /\ cancels (task d') = cancels (task d)
       /\ (forall q, q <> RESOURCE_DELETED -> q <> DONE ->
                     is_set q (stopper d') = is_set q (stopper d))
       /\ (tk_finished (env id) = true -> is_set DONE (stopper d') = true)
       /\ (tk_finished (env id) = false ->
           is_set DONE (stopper d') = is_set DONE (stopper d))).
Proof.
  intros S F. apply visits_turn; [exact S|]. intros d' evs delays E.
  assert (Hd : is_supported (handler d)).
  { apply Forall_app in S. destruct S as [_ S].
    inversion S as [|? ? Hd _]; subst. exact Hd. }
  destruct (finished_turn now (clock_after now env pre) (env id) id d Hd F)
    as (d1 & R & P).
  rewrite E in R. injection R as <- <- <-. auto.
Qed.

Lemma finished_daemon_is_left_alone_witness :
  visits 500 (fun _ => mkTick 500 true) [] "fn"
    (mkDaemon (mkStopper [RESOURCE_DELETED] (Some 100))
              (IsDaemonHandler escalating_handler) (mkTask false 0))
    [("tick"%string, spawned (IsTimerHandler some_timer))]
    (fun d' evs delays =>
       evs = turn_prefix "fn"
       /\ delays = []
       /\ done (task d') = true
       /\ cancels (task d') = 0%nat
       /\ is_set DONE (stopper d') = true).
Proof.
  destruct (finished_daemon_is_left_alone 500 (fun _ => mkTick 500 true) [] "fn"
              (mkDaemon (mkStopper [RESOURCE_DELETED] (Some 100))
                        (IsDaemonHandler escalating_handler) (mkTask false 0))
              [("tick"%string, spawned (IsTimerHandler some_timer))])
    as (pre' & evs1 & delays1 & d' & evs & delays & post' & evs2 & delays2
        & E & Ep & K & A & B & D & C & _ & Y & _);
    [repeat constructor|reflexivity|].
  exists pre', evs1, delays1, d', evs, delays, post', evs2, delays2.
  repeat split; auto.
Defined.

(** X4.  The delays of a turn are positive: what is left of the backoff in
    the graceful phase, what is left of backoff plus timeout in the
    forceful phase, and the polling interval (the handler's own, unless it
    is negative, or 60) otherwise. *)
Theorem deletion_delays_positive now clock tk id d d' evs delays :
  polling_not_negative (handler d) ->
  stop_resource_daemon now clock tk id d = inr (d', evs, delays) ->
  Forall (fun delay => 0 < delay) delays.
Proof.
  unfold stop_resource_daemon, flag_once, polling_not_negative, py_or,
    DAEMON_POLLING_INTERVAL.
  destruct (handler d) as [h|h|o]; cbn [deletion_deadlines]; [| |discriminate];
    unfold py_or, DAEMON_POLLING_INTERVAL;
    intros P E; crack; zify_tests;
    repeat first [apply Forall_nil | apply Forall_cons]; lia.
Qed.

Lemma deletion_delays_positive_witness :
  Forall (fun delay => 0 < delay) [8].
Proof.
  apply (deletion_delays_positive 107 107 (mkTick 107 false) "fn"
           (mkDaemon (mkStopper [DAEMON_CANCELLED; DAEMON_SIGNALLED;
                                 RESOURCE_DELETED] (Some 100))
                     (IsDaemonHandler escalating_handler) (mkTask false 1))
           (mkDaemon (mkStopper [DAEMON_CANCELLED; DAEMON_SIGNALLED;
                                 RESOURCE_DELETED] (Some 100))
                     (IsDaemonHandler escalating_handler) (mkTask false 1))
           (turn_prefix "fn") [8] I eq_refl).
Defined.

(** X5.  A daemon handler without [cancellation_timeout] is never forced:
    once its graceful phase is over (or if it has none), every turn on the
    unfinished daemon, at whatever age, only logs and contributes the
    polling interval ([cancellation_polling or 60]); no reason is set but
    RESOURCE_DELETED and the task is not cancelled. *)
Theorem without_timeout_never_forced now clock tk id d h :
  handler d = IsDaemonHandler h ->
  cancellation_timeout h = None ->
  match cancellation_backoff h with
  | Some b => b <= stop_age now (stopper d)
  | None => True
  end ->
  done (task d) = false ->
  tk_finished tk = false ->
  let polling := py_or (cancellation_polling h) DAEMON_POLLING_INTERVAL in
  exists d',
    stop_resource_daemon now clock tk id d =
      inr (d', turn_prefix id ++ [EvDebugPolling id polling], [polling])
    /\ done (task d') = false
    /\ cancels (task d') = cancels (task d)
    /\ (forall q, q <> RESOURCE_DELETED ->
                  is_set q (stopper d') = is_set q (stopper d)).
Proof.
  intros Hh Ht G D T polling.
  rewrite (turn_unfolded now clock tk id d D T), Hh.
  unfold deletion_deadlines. rewrite Ht. cbv zeta. fold polling.
  assert (R : exists d',
             inr (with_stopper d (set_reason clock RESOURCE_DELETED (stopper d)),
                  turn_prefix id ++ [EvDebugPolling id polling], [polling])
             = (inr (d', turn_prefix id ++ [EvDebugPolling id polling], [polling])
                : exn + (Daemon * list event * list Z))
             /\ done (task d') = false
             /\ cancels (task d') = cancels (task d)
             /\ (forall q, q <> RESOURCE_DELETED ->
                           is_set q (stopper d') = is_set q (stopper d))).
  { eexists. split; [reflexivity|]. simpl. repeat split; auto.
    intros q Q. now apply is_set_deleted. }
  destruct (cancellation_backoff h) as [b|]; [|exact R].
  destruct (Z.ltb_spec (stop_age now (stopper d)) b); [lia|exact R].
Qed.

Lemma without_timeout_never_forced_witness :
  exists d',
    stop_resource_daemon 100000 100000 (mkTick 100000 false) "fn"
      (mkDaemon (mkStopper [DAEMON_SIGNALLED; RESOURCE_DELETED] (Some 100))
                (IsDaemonHandler (mkDaemonHandler "fn" None (Some 5) None (Some 0)))
                (mkTask false 0))
    = inr (d', turn_prefix "fn" ++ [EvDebugPolling "fn" 60], [60])
    /\ cancels (task d') = 0%nat.
Proof.
  destruct (without_timeout_never_forced 100000 100000 (mkTick 100000 false) "fn"
              (mkDaemon (mkStopper [DAEMON_SIGNALLED; RESOURCE_DELETED] (Some 100))
                        (IsDaemonHandler
                           (mkDaemonHandler "fn" None (Some 5) None (Some 0)))
                        (mkTask false 0))
              (mkDaemonHandler "fn" None (Some 5) None (Some 0))
              eq_refl eq_refl)
    as (d' & R & _ & C & _); try reflexivity.
  - simpl. unfold stop_age; simpl. lia.
  - exists d'. split; assumption.
Defined.

(** X6.  A daemon handler with a [cancellation_timeout] but without
    [cancellation_backoff] has no graceful phase: the first turn that finds
    the unfinished daemon younger than the timeout and not yet flagged sets
    DAEMON_CANCELLED, cancels the task and contributes what is left of the
    timeout; DAEMON_SIGNALLED is not touched. *)
Theorem without_backoff_cancels_at_once now clock tk id d h t :
  handler d = IsDaemonHandler h ->
  cancellation_backoff h = None ->
  cancellation_timeout h = Some t ->
  stop_age now (stopper d) < t ->
  is_set DAEMON_CANCELLED (stopper d) = false ->
  done (task d) = false ->
  tk_finished tk = false ->
  exists d',
    stop_resource_daemon now clock tk id d =
      inr (d', turn_prefix id ++ [EvSet id DAEMON_CANCELLED;
                                  EvDebugCancelled id; EvCancelTask id],
           [t - stop_age now (stopper d)])
    /\ is_set DAEMON_CANCELLED (stopper d') = true
    /\ is_set DAEMON_SIGNALLED (stopper d') = is_set DAEMON_SIGNALLED (stopper d)
    /\ cancels (task d') = S (cancels (task d)).
Proof.
  intros Hh Hb Ht L N D T.
  destruct (turn_forceful now clock tk id d h Hh D T t Ht)
    as (d' & evs & R & S & _ & _ & _ & F & E).
  - now rewrite Hb.
  - rewrite Hb. simpl. lia.
  - rewrite N in E. destruct E as [-> C]. rewrite Hb in R. simpl in R.
    exists d'. rewrite R.
    replace (t + 0 - stop_age now (stopper d))
      with (t - stop_age now (stopper d)) by lia.
    repeat split; auto. apply F; discriminate.
Qed.

Lemma without_backoff_cancels_at_once_witness :
  exists d',
    stop_resource_daemon 100 100 (mkTick 100 false) "fn"
      (spawned (IsDaemonHandler (mkDaemonHandler "fn" None None (Some 10) None)))
    = inr (d', turn_prefix "fn" ++ [EvSet "fn" DAEMON_CANCELLED;
                                    EvDebugCancelled "fn"; EvCancelTask "fn"],
           [10 - 0])
    /\ cancels (task d') = 1%nat.
Proof.
  destruct (without_backoff_cancels_at_once 100 100 (mkTick 100 false) "fn"
              (spawned (IsDaemonHandler
                          (mkDaemonHandler "fn" None None (Some 10) None)))
              (mkDaemonHandler "fn" None None (Some 10) None) 10
              eq_refl eq_refl eq_refl eq_refl eq_refl eq_refl eq_refl)
    as (d' & R & _ & _ & C).
  exists d'. split; assumption.
Defined.

(** X7.  [task.cancel()] is never called without DAEMON_CANCELLED: on a
    record as spawn makes it the reason is unset and the task uncancelled,
    and after a turn of stop-for-deletion or after [stop_daemon] a record
    has the reason set only if the task was cancelled at least once;
    and each of the two cancels the task at most once per call. *)
Theorem cancel_goes_with_its_reason :
  (forall h, cancel_follows_flag (spawned h))
  /\ (forall now clock tk id d d' evs delays,
         stop_resource_daemon now clock tk id d = inr (d', evs, delays) ->
         (cancel_follows_flag d -> cancel_follows_flag d')
         /\ (cancels (task d') <= S (cancels (task d)))%nat
         /\ (cancels (task d) <= cancels (task d'))%nat)
  /\ (forall env id d d' evs,
         stop_daemon env id d = inr (d', evs) ->
         (cancel_follows_flag d -> cancel_follows_flag d')
         /\ (cancels (task d') <= S (cancels (task d)))%nat
         /\ (cancels (task d) <= cancels (task d'))%nat).
Proof.
  split; [exact spawned_cancel_follows_flag|split].
  - intros now clock tk id d d' evs delays E.
    split; [intro C; eapply stop_turn_cancel_follows_flag; eauto|].
    revert E. unfold stop_resource_daemon, flag_once.
    destruct (deletion_deadlines (handler d)) as [e|[[backoff timeout] polling]];
      [discriminate|].
    open_awaits;
      cbn [with_task with_stopper task handler stopper cancels done];
      intro E; crack; simpl; lia.
  - intros env id d d' evs E.
    split; [intro C; eapply stop_daemon_cancel_follows_flag; eauto|].
    revert E. unfold stop_daemon, set_on.
    destruct (exit_deadlines (handler d)) as [e|[backoff timeout]];
      [discriminate|].
    open_awaits;
      cbn [with_task with_stopper task handler stopper cancels done];
      intro E; crack; simpl; lia.
Qed.

Lemma cancel_goes_with_its_reason_witness :
  cancel_follows_flag
    (mkDaemon (mkStopper [DAEMON_CANCELLED; RESOURCE_DELETED] (Some 100))
              (IsDaemonHandler (mkDaemonHandler "fn" None None (Some 10) None))
              (mkTask false 1)).
Proof.
  destruct cancel_goes_with_its_reason as (S & T & _).
  destruct (T 100 100 (mkTick 100 false) "fn"%string
              (spawned (IsDaemonHandler
                          (mkDaemonHandler "fn" None None (Some 10) None)))
              _ _ _ eq_refl) as (K & _).
  apply K, S.
Defined.

(** ** stop_resource_daemons, the whole call *)

(** X2.  A call of stop-for-deletion on a table of daemon and timer
    handlers returns its delays (it does not raise), keeps the ids of the
    table in their order and the handler of every record, leaves
    RESOURCE_DELETED set on every record, finished or not, and returns at
    most one delay per daemon. *)
Theorem deletion_marks_every_daemon now env daemons :
  supported daemons ->
  exists daemons' evs delays,
    stop_resource_daemons now env daemons = (daemons', evs, inr delays)
    /\ keys daemons' = keys daemons
    /\ map (fun item => handler (snd item)) daemons'
       = map (fun item => handler (snd item)) daemons
    /\ all_deleted daemons'
    /\ (List.length delays <= List.length daemons)%nat.
Proof.
  intro S. unfold stop_resource_daemons. now apply stop_items_marks.
Qed.

Lemma deletion_marks_every_daemon_witness :
  exists daemons' evs delays,
    stop_resource_daemons 100 (never_finishes 100)
      [("fn"%string, spawned (IsDaemonHandler escalating_handler));
       ("tick"%string, spawned (IsTimerHandler some_timer))]
    = (daemons', evs, inr delays)
    /\ keys daemons' = ["fn"%string; "tick"%string]
    /\ all_deleted daemons'
    /\ (List.length delays <= 2)%nat.
Proof.
  destruct (deletion_marks_every_daemon 100 (never_finishes 100)
              [("fn"%string, spawned (IsDaemonHandler escalating_handler));
               ("tick"%string, spawned (IsTimerHandler some_timer))])
    as (ds & evs & delays & R & K & _ & A & L).
  - repeat constructor.
  - exists ds, evs, delays. repeat split; assumption.
Defined.

Lemma stop_turn_unsupported now clock tk id d :
  ~ is_supported (handler d) ->
  stop_resource_daemon now clock tk id d = inl unsupported_error.
Proof.
  unfold stop_resource_daemon, is_supported.
  destruct (handler d); simpl; tauto.
Qed.

Lemma stop_items_unsupported now env pre id d post :
  supported pre ->
  ~ is_supported (handler d) ->
  forall clock, exists pre' evs,
    stop_items now clock env (pre ++ (id, d) :: post)
    = (pre' ++ (id, d) :: post, evs, inl unsupported_error)
    /\ keys pre' = keys pre
    /\ all_deleted pre'.
Proof.
  intros S U. induction S as [|[k d0] pre Hd _ IH]; intro clock; simpl.
  - rewrite (stop_turn_unsupported _ _ _ _ _ U).
    exists [], []. repeat split; constructor.
  - destruct (stop_turn_supported now clock (env k) k d0 Hd)
      as (d0' & evs0 & delays0 & E).
    destruct (stop_turn_frame _ _ _ _ _ _ _ _ E) as (_ & F2 & _).
    destruct (IH (tk_clock (env k))) as (pre' & evs & E' & K & A).
    rewrite E, E'. exists ((k, d0') :: pre'), (evs0 ++ evs).
    unfold keys in *. simpl. repeat split; try congruence.
    constructor; assumption.
Qed.

(** X3.  A record whose handler is neither a daemon handler nor a timer
    handler makes the call raise the RuntimeError "Unsupported daemon
    handler" when its turn comes: the daemons before it have had their
    turn (RESOURCE_DELETED is set on them) and their delays are lost; the
    record itself and those after it are untouched. *)
Theorem deletion_raises_at_unsupported now env pre id d post :
  supported pre ->
  ~ is_supported (handler d) ->
  exists pre' evs,
    stop_resource_daemons now env (pre ++ (id, d) :: post)
    = (pre' ++ (id, d) :: post, evs, inl unsupported_error)
    /\ keys pre' = keys pre
    /\ all_deleted pre'.
Proof.
  intros S U. unfold stop_resource_daemons.
  now apply stop_items_unsupported.
Qed.

Lemma deletion_raises_at_unsupported_witness :
  exists pre' evs,
    stop_resource_daemons 100 (never_finishes 100)
      ([("fn"%string, spawned (IsDaemonHandler escalating_handler))]
       ++ ("odd"%string, spawned (IsOtherHandler "odd"))
       :: [("tick"%string, spawned (IsTimerHandler some_timer))])
    = (pre' ++ ("odd"%string, spawned (IsOtherHandler "odd"))
            :: [("tick"%string, spawned (IsTimerHandler some_timer))],
       evs, inl unsupported_error)
    /\ keys pre' = ["fn"%string]
    /\ all_deleted pre'.
Proof.
  apply (deletion_raises_at_unsupported 100 (never_finishes 100)
           [("fn"%string, spawned (IsDaemonHandler escalating_handler))]
           "odd" (spawned (IsOtherHandler "odd"))
           [("tick"%string, spawned (IsTimerHandler some_timer))]).
  - repeat constructor.
  - simpl. tauto.
Defined.

(** ** stop_daemon and daemon_killer *)

(** Where [stop_daemon] leaves a daemon. *)
Lemma stop_daemon_outcome env id d d' evs :
  stop_daemon env id d = inr (d', evs) ->
  is_set OPERATOR_EXITING (stopper d') = true
  /\ (done (task d') = true \/ is_set DAEMON_ABANDONED (stopper d') = true)
  /\ (done (task d') = true ->
      is_set DAEMON_ABANDONED (stopper d') = is_set DAEMON_ABANDONED (stopper d))
  /\ handler d' = handler d.
Proof.
  unfold stop_daemon, set_on.
  destruct (exit_deadlines (handler d)) as [e|[backoff timeout]];
    [discriminate|].
  open_awaits;
    cbn [with_task with_stopper task handler stopper cancel cancels done];
    intro E; crack;
    cbn [with_task with_stopper task handler stopper cancel cancels done] in *;
    rewrite ?is_set_set_reason; simpl;
    repeat match goal with
           | H : negb ?b = false |- _ => apply negb_false_iff in H
           | H : negb ?b = true |- _ => apply negb_true_iff in H
           end;
    repeat split; auto; intros; congruence.
Qed.

(** X8.  However [stop_daemon] goes, for a daemon or a timer handler it
    returns with OPERATOR_EXITING set and with the daemon either finished
    or flagged DAEMON_ABANDONED; it flags a daemon as abandoned only if the
    task is still unfinished at the end, and keeps the handler. *)
Theorem stop_daemon_ends_done_or_abandoned env id d d' evs :
  stop_daemon env id d = inr (d', evs) ->
  is_set OPERATOR_EXITING (stopper d') = true
  /\ (done (task d') = true \/ is_set DAEMON_ABANDONED (stopper d') = true)
  /\ (done (task d') = true ->
      is_set DAEMON_ABANDONED (stopper d') = is_set DAEMON_ABANDONED (stopper d))
  /\ handler d' = handler d.
Proof. apply stop_daemon_outcome. Qed.

Lemma stop_daemon_ends_done_or_abandoned_witness :
  is_set OPERATOR_EXITING
    (stopper (mkDaemon (mkStopper [DONE; DAEMON_SIGNALLED; OPERATOR_EXITING]
                                  (Some 100))
                       (IsDaemonHandler escalating_handler) (mkTask true 0)))
  = true.
Proof.
  apply (stop_daemon_ends_done_or_abandoned
           (mkExitEnv 100 (mkTick 100 false) (mkTick 103 true) (mkTick 103 true))
           "fn" (spawned (IsDaemonHandler escalating_handler)) _
           [EvSet "fn" OPERATOR_EXITING; EvYield;
            EvSet "fn" DAEMON_SIGNALLED; EvDebugSignalled "fn";
            EvWaitTask "fn" 5] eq_refl).
Defined.

(** X9.  A daemon that is finished right after the yield (a well-behaved
    one exits on OPERATOR_EXITING) is only logged as "exited gracefully":
    [stop_daemon] sets OPERATOR_EXITING and no further reason, waits for
    nothing and cancels nothing, whatever the deadlines of the handler.
    DONE is on the record afterwards if the task finished during the yield
    (the runner set it on its way out), and as it was before otherwise. *)
Theorem stop_daemon_graceful_exit env id d :
  is_supported (handler d) ->
  (done (task d) || tk_finished (on_yield env))%bool = true ->
  exists d',
    stop_daemon env id d =
      inr (d', [EvSet id OPERATOR_EXITING; EvYield; EvDebugExited id])
    /\ done (task d') = true
    /\ cancels (task d') = cancels (task d)
    /\ (forall q, q <> OPERATOR_EXITING -> q <> DONE ->
                  is_set q (stopper d') = is_set q (stopper d))
    /\ (tk_finished (on_yield env) = true -> is_set DONE (stopper d') = true)
    /\ (tk_finished (on_yield env) = false ->
        is_set DONE (stopper d') = is_set DONE (stopper d)).
Proof.
  intros S F. unfold stop_daemon.
  assert (R : exists deadlines, exit_deadlines (handler d) = inr deadlines).
  { destruct (handler d); [| |contradiction]; simpl; eauto. }
  destruct R as ([backoff timeout] & ->).
  set (d1 := set_on (on_entry env) OPERATOR_EXITING d).
  destruct (after_await_task (on_yield env) d1) as (A1 & A2 & A3).
  destruct (after_await_stopper (on_yield env) d1) as (A4 & A5 & _).
  assert (A6 : tk_finished (on_yield env) = false ->
               after_await (on_yield env) d1 = d1)
    by apply after_await_unfinished.
  cbn [d1 set_on with_stopper task stopper] in A1, A2, A5.
  rewrite F in A1.
  assert (Q : forall q, q <> OPERATOR_EXITING ->
                is_set q (set_reason (on_entry env) OPERATOR_EXITING (stopper d))
                = is_set q (stopper d)).
  { intros q N. rewrite is_set_set_reason. now rewrite (reason_eqb_neq _ _ N). }
  set (d2 := after_await (on_yield env) d1) in *. clearbody d2.
  exists d2. split.
  - destruct backoff, timeout;
      repeat (progress (cbn [negb app]; rewrite ?A1)); reflexivity.
  - repeat split; auto.
    + intros q Q1 Q2. rewrite A5 by exact Q2. now apply Q.
    + intro T. rewrite (A6 T). cbn [d1 set_on with_stopper stopper].
      apply Q. discriminate.
Qed.

Lemma stop_daemon_graceful_exit_witness :
  exists d',
    stop_daemon (mkExitEnv 100 (mkTick 100 true) (mkTick 100 true)
                           (mkTick 100 true))
                "fn" (spawned (IsDaemonHandler escalating_handler)) =
      inr (d', [EvSet "fn" OPERATOR_EXITING; EvYield; EvDebugExited "fn"])
    /\ cancels (task d') = 0%nat
    /\ is_set DAEMON_SIGNALLED (stopper d') = false
    /\ is_set DONE (stopper d') = true.
Proof.
  destruct (stop_daemon_graceful_exit
              (mkExitEnv 100 (mkTick 100 true) (mkTick 100 true)
                         (mkTick 100 true))
              "fn" (spawned (IsDaemonHandler escalating_handler)) I eq_refl)
    as (d' & R & _ & C & Q & Y & _).
  exists d'. repeat split; auto.
  rewrite Q; [reflexivity| |]; discriminate.
Defined.

(** X10.  A daemon with a [cancellation_backoff] that finishes while
    [stop_daemon] waits for it after the signal is neither cancelled nor
    abandoned, whatever its [cancellation_timeout]: the call sets
    OPERATOR_EXITING and DAEMON_SIGNALLED and waits once, for the backoff. *)
Theorem stop_daemon_exit_within_backoff env id d h b :
  handler d = IsDaemonHandler h ->
  cancellation_backoff h = Some b ->
  done (task d) = false ->
  tk_finished (on_yield env) = false ->
  tk_finished (on_backoff env) = true ->
  exists d',
    stop_daemon env id d =
      inr (d', [EvSet id OPERATOR_EXITING; EvYield;
                EvSet id DAEMON_SIGNALLED; EvDebugSignalled id;
                EvWaitTask id b])
    /\ done (task d') = true
    /\ cancels (task d') = cancels (task d)
    /\ is_set DAEMON_CANCELLED (stopper d') = is_set DAEMON_CANCELLED (stopper d)
    /\ is_set DAEMON_ABANDONED (stopper d') = is_set DAEMON_ABANDONED (stopper d).
Proof.
  intros Hh Hb D T1 T2. unfold stop_daemon, set_on, after_await. rewrite Hh.
  cbn [exit_deadlines]. rewrite Hb, T1, ?T2.
  destruct (cancellation_timeout h);
    repeat (progress (simpl; rewrite ?D, ?T1, ?T2)); simpl;
    eexists; (split; [reflexivity|]); simpl;
    rewrite ?D, ?T1, ?T2, !is_set_set_reason; simpl; repeat split; auto.
Qed.

Lemma stop_daemon_exit_within_backoff_witness :
  exists d',
    stop_daemon (mkExitEnv 100 (mkTick 100 false) (mkTick 103 true)
                           (mkTick 103 true))
                "fn" (spawned (IsDaemonHandler escalating_handler)) =
      inr (d', [EvSet "fn" OPERATOR_EXITING; EvYield;
                EvSet "fn" DAEMON_SIGNALLED; EvDebugSignalled "fn";
                EvWaitTask "fn" 5])
    /\ done (task d') = true
    /\ cancels (task d') = 0%nat.
Proof.
  destruct (stop_daemon_exit_within_backoff
              (mkExitEnv 100 (mkTick 100 false) (mkTick 103 true)
                         (mkTick 103 true))
              "fn" (spawned (IsDaemonHandler escalating_handler))
              escalating_handler 5 eq_refl eq_refl eq_refl eq_refl eq_refl)
    as (d' & R & D & C & _).
  exists d'. repeat split; assumption.
Defined.

(** X11.  On a daemon with both deadlines that never finishes,
    [stop_daemon] goes through all its steps in one call and in this
    order: OPERATOR_EXITING and a yield; DAEMON_SIGNALLED and a wait of the
    backoff; DAEMON_CANCELLED, [task.cancel()] and a wait of the timeout;
    DAEMON_ABANDONED with the warning and the resource-leak warning.  The
    task is cancelled once, after its reason was set. *)
Theorem stop_daemon_escalates_in_order env id d h b t :
  handler d = IsDaemonHandler h ->
  cancellation_backoff h = Some b ->
  cancellation_timeout h = Some t ->
  done (task d) = false ->
  tk_finished (on_yield env) = false ->
  tk_finished (on_backoff env) = false ->
  tk_finished (on_timeout env) = false ->
  exists d',
    stop_daemon env id d =
      inr (d', [EvSet id OPERATOR_EXITING; EvYield;
                EvSet id DAEMON_SIGNALLED; EvDebugSignalled id;
                EvWaitTask id b;
                EvSet id DAEMON_CANCELLED; EvDebugCancelled id;
                EvCancelTask id; EvWaitTask id t;
                EvSet id DAEMON_ABANDONED; EvWarnOrphaned id;
                EvResourceWarning id])
    /\ done (task d') = false
    /\ cancels (task d') = S (cancels (task d))
    /\ is_set DAEMON_SIGNALLED (stopper d') = true
    /\ is_set DAEMON_CANCELLED (stopper d') = true
    /\ is_set DAEMON_ABANDONED (stopper d') = true.
Proof.
  intros Hh Hb Ht D T1 T2 T3. unfold stop_daemon, set_on, after_await.
  rewrite Hh. cbn [exit_deadlines]. rewrite Hb, Ht, T1, ?T2, ?T3.
  repeat (progress (simpl; rewrite ?D, ?T1, ?T2, ?T3)); simpl.
  eexists; (split; [reflexivity|]); simpl;
    rewrite ?D, ?T1, ?T2, ?T3, !is_set_set_reason; simpl;
    repeat split; auto using orb_true_r.
Qed.

Lemma stop_daemon_escalates_in_order_witness :
  exists d',
    stop_daemon (mkExitEnv 100 (mkTick 100 false) (mkTick 105 false)
                           (mkTick 115 false))
                "fn" (spawned (IsDaemonHandler escalating_handler)) =
      inr (d', [EvSet "fn" OPERATOR_EXITING; EvYield;
                EvSet "fn" DAEMON_SIGNALLED; EvDebugSignalled "fn";
                EvWaitTask "fn" 5;
                EvSet "fn" DAEMON_CANCELLED; EvDebugCancelled "fn";
                EvCancelTask "fn"; EvWaitTask "fn" 10;
                EvSet "fn" DAEMON_ABANDONED; EvWarnOrphaned "fn";
                EvResourceWarning "fn"])
    /\ cancels (task d') = 1%nat.
Proof.
  destruct (stop_daemon_escalates_in_order
              (mkExitEnv 100 (mkTick 100 false) (mkTick 105 false)
                         (mkTick 115 false))
              "fn" (spawned (IsDaemonHandler escalating_handler))
              escalating_handler 5 10
              eq_refl eq_refl eq_refl eq_refl eq_refl eq_refl eq_refl)
    as (d' & R & _ & C & _).
  exists d'. split; assumption.
Defined.

Lemma stop_daemon_error env id d e :
  stop_daemon env id d = inl e -> e = unsupported_error.
Proof.
  unfold stop_daemon.
  destruct (handler d) as [h|h|o]; cbn [exit_deadlines];
    [| |intro E; now inversion E];
    intro E; crack; discriminate.
Qed.

Lemma stop_memory_puts_down env daemons :
  map fst (stop_memory env daemons) = keys daemons
  /\ Forall put_down (stop_memory env daemons).
Proof.
  unfold stop_memory, keys. split.
  - rewrite map_map. reflexivity.
  - apply Forall_forall. intros [id r] H. apply in_map_iff in H.
    destruct H as ([k d] & E & _). simpl in E.
    injection E as E1 E2. subst id r.
    unfold put_down. simpl.
    destruct (stop_daemon (env k) k d) as [e|[d' evs]] eqn:S.
    + now apply stop_daemon_error in S.
    + destruct (stop_daemon_outcome _ _ _ _ _ S) as (A & B & _). auto.
Qed.

Lemma stop_memories_put_down env memories :
  forall n,
    map (map fst) (stop_memories env n memories) = map keys memories
    /\ Forall (Forall put_down) (stop_memories env n memories).
Proof.
  induction memories as [|daemons rest IH]; intro n; simpl.
  - split; constructor.
  - destruct (IH (S n)) as [K F].
    destruct (stop_memory_puts_down (env n) daemons) as [K0 F0].
    split; [now rewrite K0, K|constructor; assumption].
Qed.

Lemma stop_memories_none env memories :
  List.concat memories = [] ->
  forall n, List.concat (stop_memories env n memories) = [].
Proof.
  induction memories as [|daemons rest IH]; simpl; intros E n; [reflexivity|].
  apply app_eq_nil in E. destruct E as [-> E]. simpl. now apply IH.
Qed.

(** X12.  When the killer is cancelled (the operator shuts down) on an
    interpreter whose [asyncio.wait] still takes coroutine objects (Python
    up to 3.10), there is a [stop_daemon] for every daemon of every memory
    and every daemon is put down: OPERATOR_EXITING is set on it and it is
    finished or flagged DAEMON_ABANDONED (a record with an unsupported
    handler only has the error of its own coroutine).  Where
    [asyncio.wait] refuses coroutine objects (Python 3.11 and later), the
    killer raises TypeError as soon as there is one daemon to stop, and no
    daemon is stopped; without any daemon it returns, because of the test
    [if coros:].  Any other exception of the killer's wait than the
    cancellation is not caught. *)
Theorem killer_puts_every_daemon_down env memories :
  (exists result,
      daemon_killer (Raises CancelledError) WrapsCoroutines env memories
      = inr result
      /\ map (map fst) result = map keys memories
      /\ Forall (Forall put_down) result)
  /\ (List.concat memories <> [] ->
      daemon_killer (Raises CancelledError) RefusesCoroutines env memories
      = inl wait_error)
  /\ (List.concat memories = [] ->
      exists result,
        daemon_killer (Raises CancelledError) RefusesCoroutines env memories
        = inr result
        /\ List.concat result = [])
  /\ (forall policy e, e <> CancelledError ->
                       daemon_killer (Raises e) policy env memories = inl e).
Proof.
  split; [|split; [|split]].
  - exists (stop_memories env 0 memories). split.
    + unfold daemon_killer. now destruct (List.concat memories).
    + apply stop_memories_put_down.
  - intro N. unfold daemon_killer.
    destruct (List.concat memories); [contradiction|reflexivity].
  - intro E. exists (stop_memories env 0 memories).
    unfold daemon_killer. rewrite E. split; [reflexivity|].
    now apply stop_memories_none.
  - intros policy e N. destruct e; try reflexivity. contradiction.
Qed.

Lemma killer_puts_every_daemon_down_witness :
  let env := fun (_ : nat) (_ : DaemonId) =>
               mkExitEnv 0 (mkTick 0 false) (mkTick 5 true) (mkTick 5 true) in
  let memories := [[("fn"%string, spawned (IsDaemonHandler escalating_handler))];
                   [("tick"%string, spawned (IsTimerHandler some_timer))]] in
  (exists result,
      daemon_killer (Raises CancelledError) WrapsCoroutines env memories
      = inr result
      /\ map (map fst) result = [["fn"%string]; ["tick"%string]]
      /\ Forall (Forall put_down) result)
  /\ daemon_killer (Raises CancelledError) RefusesCoroutines env memories
     = inl wait_error.
Proof.
  intros env memories.
  destruct (killer_puts_every_daemon_down env memories) as (A & B & _).
  split; [exact A|]. apply B. discriminate.
Defined.

(** ** The runner and its stopper *)

Ltac open_bodies :=
  unfold daemon_start, daemon_resume, daemon_loop,
    timer_start, timer_resume, timer_schedule, timer_idle_wait, timer_loop,
    timer_gate, timer_exit_or, timer_fire, py_mod.

(** Case analysis on the tests of the bodies, not on the status. *)
Ltac crack_bodies :=
  repeat match goal with
         | |- context [match ?t with _ => _ end] =>
             lazymatch t with
             | fst _ => fail
             | _ => destruct t eqn:?
             end
         end;
  simpl.

Lemma agrees_finally handler c :
  agrees handler c -> agrees handler (finally_done c).
Proof. unfold agrees. rewrite fst_finally_done. auto. Qed.

Lemma agrees_start handler x : agrees handler (runner_start handler x).
Proof.
  unfold runner_start. apply agrees_finally.
  unfold agrees, timer_placed. open_bodies.
  destruct handler as [h|h|o]; crack_bodies; auto; split; auto; congruence.
Qed.

Lemma agrees_resume handler c r :
  agrees handler c -> agrees handler (runner_resume c r).
Proof.
  destruct c as [[h a|h a|raised] x]; unfold runner_resume; simpl;
    [intros A; apply agrees_finally; revert A
    |intros A; apply agrees_finally; revert A
    |auto];
    unfold agrees, timer_placed; simpl.
  - intros ->. open_bodies. destruct a; crack_bodies; auto.
  - intros [-> P]. open_bodies.
    destruct a; crack_bodies; auto; try (split; auto; congruence);
      try tauto; split; auto; split; congruence.
Qed.

Lemma agrees_run handler x rs : agrees handler (_runner handler x rs).
Proof.
  unfold _runner. generalize (agrees_start handler x).
  generalize (runner_start handler x) as c.
  induction rs as [|r rs IH]; simpl; intros c A; [exact A|].
  now apply IH, agrees_resume.
Qed.

(** With the stopper set, every completion of an await brings the runner
    nearer to its exit and invokes nothing. *)
Lemma set_stopper_step handler c r :
  agrees handler c ->
  no_idle_wait handler ->
  is_set_any (x_stopper (snd c)) = true ->
  (awaits_left (fst (runner_resume c r)) <= pred (awaits_left (fst c)))%nat
  /\ x_fired (snd (runner_resume c r)) = x_fired (snd c)
  /\ is_set_any (x_stopper (snd (runner_resume c r))) = true.
Proof.
  destruct c as [[h a|h a|raised] x]; unfold runner_resume, agrees; simpl;
    intros A N S; [| |auto].
  - destruct (finally_done_keeps (daemon_resume h a x r)) as (F & _ & K).
    rewrite fst_finally_done, F.
    assert (S' : is_set_any (set_all (r_clock r) (r_set r) (x_stopper x)) = true)
      by now apply is_set_any_set_all.
    assert (B : (awaits_left (fst (daemon_resume h a x r))
                 <= pred (awaits_left (DaemonAwaits h a)))%nat
                /\ x_fired (snd (daemon_resume h a x r)) = x_fired x
                /\ is_set_any (x_stopper (snd (daemon_resume h a x r))) = true).
    { open_bodies. simpl. rewrite ?S'. simpl.
      destruct a; crack_bodies; rewrite ?S'; auto. }
    destruct B as (B1 & B2 & B3). auto.
  - destruct A as [-> P].
    destruct (finally_done_keeps (timer_resume h a x r)) as (F & _ & K).
    rewrite fst_finally_done, F.
    assert (S' : is_set_any (set_all (r_clock r) (r_set r) (x_stopper x)) = true)
      by now apply is_set_any_set_all.
    assert (B : (awaits_left (fst (timer_resume h a x r))
                 <= pred (awaits_left (TimerAwaits h a)))%nat
                /\ x_fired (snd (timer_resume h a x r)) = x_fired x
                /\ is_set_any (x_stopper (snd (timer_resume h a x r))) = true).
    { unfold no_idle_wait in N. unfold timer_placed in P.
      open_bodies. simpl. rewrite ?S'. simpl.
      destruct a; crack_bodies; rewrite ?S'; auto;
        try (exfalso; intuition congruence). }
    destruct B as (B1 & B2 & B3). auto.
Qed.

Lemma awaits_left_none (c : cfg) : awaits_left (fst c) = 0%nat -> finished c.
Proof.
  unfold finished. destruct c as [[h a|h a|raised] x]; simpl.
  - destruct a; discriminate.
  - destruct a; discriminate.
  - eauto.
Qed.

Lemma awaits_left_bound (c : cfg) : (awaits_left (fst c) <= 3)%nat.
Proof.
  destruct c as [[h a|h a|raised] x]; simpl; try destruct a; lia.
Qed.

(** X13.  Once a reason is set on the stopper, the runner of a daemon, and
    that of a timer that has an [interval] or no [idle], is over after at
    most three more completions of its awaits (the invocation in progress,
    the patching, one sleep), however these end, and it does not invoke the
    handler again. *)
Theorem set_stopper_ends_the_runner handler x rs r1 r2 r3 :
  no_idle_wait handler ->
  is_set_any (x_stopper (snd (_runner handler x rs))) = true ->
  finished (_runner handler x (rs ++ [r1; r2; r3]))
  /\ x_fired (snd (_runner handler x (rs ++ [r1; r2; r3])))
     = x_fired (snd (_runner handler x rs)).
Proof.
  intros N S.
  assert (A := agrees_run handler x rs).
  unfold _runner in *. rewrite fold_left_app.
  set (c := fold_left runner_resume rs (runner_start handler x)) in *.
  simpl.
  destruct (set_stopper_step handler c r1 A N S) as (L1 & F1 & S1).
  assert (A1 := agrees_resume handler c r1 A).
  destruct (set_stopper_step handler _ r2 A1 N S1) as (L2 & F2 & S2).
  assert (A2 := agrees_resume handler _ r2 A1).
  destruct (set_stopper_step handler _ r3 A2 N S2) as (L3 & F3 & S3).
  pose proof (awaits_left_bound c).
  split; [apply awaits_left_none; lia|congruence].
Qed.

Lemma set_stopper_ends_the_runner_witness :
  finished (_runner (IsDaemonHandler plain_daemon) (initial_ctx 0 0)
                    ([mkResume 2 0 [OPERATOR_EXITING] Returns
                               (mkState false (Some 5) []) true]
                     ++ [wakes 3 0; wakes 3 0; wakes 3 0]))
  /\ x_fired (snd (_runner (IsDaemonHandler plain_daemon) (initial_ctx 0 0)
                           ([mkResume 2 0 [OPERATOR_EXITING] Returns
                                      (mkState false (Some 5) []) true]
                            ++ [wakes 3 0; wakes 3 0; wakes 3 0])))
     = [0].
Proof.
  apply (set_stopper_ends_the_runner (IsDaemonHandler plain_daemon)
           (initial_ctx 0 0)
           [mkResume 2 0 [OPERATOR_EXITING] Returns
                     (mkState false (Some 5) []) true]
           (wakes 3 0) (wakes 3 0) (wakes 3 0) I eq_refl).
Defined.

(** ** When the handler is invoked *)

(** The boolean connectives of the hypotheses, taken apart. *)
Ltac bool_hyps :=
  repeat match goal with
         | H : (_ && _)%bool = true |- _ =>
             apply andb_true_iff in H; destruct H
         | H : (_ && _)%bool = false |- _ =>
             apply andb_false_iff in H; destruct H as [H|H]
         | H : negb _ = false |- _ => apply negb_false_iff in H
         | H : negb _ = true |- _ => apply negb_true_iff in H
         end;
  zify_tests.

Lemma fires_finally handler clock idle_reset fired c :
  fires_only_when_free handler clock idle_reset fired c ->
  awaiting c \/ x_fired (snd c) = fired ->
  fires_only_when_free handler clock idle_reset fired (finally_done c).
Proof.
  unfold fires_only_when_free, awaiting.
  destruct c as [[h a|h a|raised] x]; simpl; auto.
  intros _ [[]|E]. auto.
Qed.

Lemma fires_start handler x :
  fires_only_when_free handler (x_clock x) (x_idle_reset_time x) (x_fired x)
                       (runner_start handler x).
Proof.
  unfold runner_start. apply fires_finally.
  - unfold fires_only_when_free, gate_open. open_bodies.
    destruct handler as [h|h|o]; crack_bodies; auto; right;
      repeat split; auto; bool_hyps; auto; try congruence; lia.
  - unfold awaiting. open_bodies.
    destruct handler as [h|h|o]; crack_bodies; auto.
Qed.

Lemma fires_resume handler c r :
  agrees handler c ->
  fires_only_when_free handler (r_clock r) (r_idle_reset_time r)
                       (x_fired (snd c)) (runner_resume c r).
Proof.
  destruct c as [[h a|h a|raised] x]; unfold runner_resume, agrees; simpl;
    [intros ->|intros [-> P]|left; reflexivity].
  - apply fires_finally.
    + unfold fires_only_when_free, gate_open. open_bodies.
      destruct a; crack_bodies; auto; right; repeat split; auto;
        bool_hyps; auto.
    + unfold awaiting. open_bodies. destruct a; crack_bodies; auto.
  - apply fires_finally.
    + unfold fires_only_when_free, gate_open. unfold timer_placed in P.
      open_bodies.
      destruct a; crack_bodies; auto; try (exfalso; intuition congruence);
        right; repeat split; auto; bool_hyps; auto; try congruence; lia.
    + unfold awaiting. open_bodies. destruct a; crack_bodies; auto.
Qed.

(** X14.  The handler of a daemon or a timer is invoked only with the
    stopper unset, and that of a timer with [idle] only when the resource
    has been quiet for at least [idle]: in every run, a completion of an
    await either leaves the list of invocations as it was or adds the
    present time to it, and then no reason is set on the stopper and
    [now - idle_reset_time >= idle].  The same holds of the start. *)
Theorem handler_fires_only_when_free handler x rs r :
  fires_only_when_free handler (x_clock x) (x_idle_reset_time x) (x_fired x)
                       (runner_start handler x)
  /\ fires_only_when_free handler (r_clock r) (r_idle_reset_time r)
                          (x_fired (snd (_runner handler x rs)))
                          (_runner handler x (rs ++ [r])).
Proof.
  split; [apply fires_start|].
  unfold _runner. rewrite fold_left_app. simpl.
  apply fires_resume. apply agrees_run.
Qed.

(** ** The patch *)

Lemma patch_finally c : patch_in_place c -> patch_in_place (finally_done c).
Proof.
  unfold patch_in_place. rewrite fst_finally_done.
  destruct (finally_done_keeps c) as (_ & -> & _). auto.
Qed.

Lemma patch_start handler x :
  x_patch x = false -> patch_in_place (runner_start handler x).
Proof.
  intro P. unfold runner_start. apply patch_finally.
  unfold patch_in_place. open_bodies.
  destruct handler as [h|h|o]; crack_bodies; auto.
Qed.

Lemma patch_resume c r :
  patch_in_place c -> patch_in_place (runner_resume c r).
Proof.
  destruct c as [[h a|h a|raised] x]; unfold runner_resume; simpl; auto;
    intro P; apply patch_finally; revert P;
    unfold patch_in_place; simpl; open_bodies;
    destruct a; crack_bodies; auto; intros; bool_hyps; congruence.
Qed.

(** X16.  A runner that starts with an empty patch keeps it empty wherever
    it sleeps or invokes the handler: what an invocation leaves in the
    patch is sent at once ([patch_obj] is awaited with a non-empty patch,
    and only then) and the patch is cleared before the next sleep. *)
Theorem patch_is_sent_before_sleeping handler x rs :
  x_patch x = false -> patch_in_place (_runner handler x rs).
Proof.
  intro P. unfold _runner. generalize (patch_start handler x P).
  generalize (runner_start handler x) as c.
  induction rs as [|r rs IH]; simpl; intros c A; [exact A|].
  now apply IH, patch_resume.
Qed.

Lemma patch_is_sent_before_sleeping_witness :
  patch_in_place
    (_runner (IsTimerHandler sharp_timer) (initial_ctx 0 0)
             [mkResume 2 0 [] Returns (mkState true None []) true;
              wakes 3 0]).
Proof.
  apply (patch_is_sent_before_sleeping (IsTimerHandler sharp_timer)
           (initial_ctx 0 0)
           [mkResume 2 0 [] Returns (mkState true None []) true; wakes 3 0]
           eq_refl).
Defined.

(** ** A daemon that has succeeded *)

Lemma settled_step c r :
  settled c ->
  settled (runner_resume c r)
  /\ x_fired (snd (runner_resume c r)) = x_fired (snd c)
  /\ (awaits_left (fst (runner_resume c r)) <= pred (awaits_left (fst c)))%nat.
Proof.
  destruct c as [[h a|h a|raised] x]; unfold runner_resume, settled; simpl;
    try contradiction; auto.
  destruct (finally_done_keeps (daemon_resume h a x r)) as (F & _ & _).
  rewrite !fst_finally_done, F.
  open_bodies. destruct a; try contradiction; intro D;
    crack_bodies; rewrite ?D in *; bool_hyps; auto; try discriminate.
Qed.

Lemma settled_run rs :
  forall c, settled c ->
    x_fired (snd (fold_left runner_resume rs c)) = x_fired (snd c)
    /\ (awaits_left (fst (fold_left runner_resume rs c))
        <= awaits_left (fst c) - List.length rs)%nat.
Proof.
  induction rs as [|r rs IH]; simpl; intros c S.
  - split; [reflexivity|lia].
  - destruct (settled_step c r S) as (S' & F & L).
    destruct (IH _ S') as (F' & L'). split; [congruence|lia].
Qed.

(** X17.  A daemon handler runs at most once to success: when an
    invocation returns with the state done, the runner invokes the handler
    no more, whatever follows, and it is over after at most two more
    completions (of the patching and of the last sleep). *)
Theorem succeeded_daemon_is_not_restarted h state x r rs :
  r_completion r = Returns ->
  st_done (r_state r) = true ->
  let c := fold_left runner_resume (r :: rs) (DaemonAwaits h (DExecute state), x) in
  x_fired (snd c) = x_fired x
  /\ ((2 <= List.length rs)%nat -> finished c).
Proof.
  intros R D c. unfold c. simpl.
  set (c1 := runner_resume (DaemonAwaits h (DExecute state), x) r).
  assert (S : settled c1 /\ x_fired (snd c1) = x_fired x
              /\ (awaits_left (fst c1) <= 2)%nat).
  { unfold c1, runner_resume, settled. simpl.
    destruct (finally_done_keeps (daemon_resume h (DExecute state) x r))
      as (F & _ & _).
    rewrite !fst_finally_done, F. open_bodies. rewrite R.
    crack_bodies; auto. }
  destruct S as (S & F & L).
  destruct (settled_run rs c1 S) as (F' & L').
  split; [congruence|]. intro N. apply awaits_left_none. lia.
Qed.

Lemma succeeded_daemon_is_not_restarted_witness :
  x_fired (snd (fold_left runner_resume
                  (succeeds 2 0 [] :: [wakes 9 0; wakes 9 0])
                  (DaemonAwaits plain_daemon (DExecute from_scratch),
                   mkCtx 0 0 Primitives.fresh false [0]))) = [0].
Proof.
  apply (succeeded_daemon_is_not_restarted plain_daemon from_scratch
           (mkCtx 0 0 Primitives.fresh false [0]) (succeeds 2 0 [])
           [wakes 9 0; wakes 9 0] eq_refl eq_refl).
Defined.

(** ** spawn_resource_daemons, once more *)

Lemma contains_keys id ds : contains id ds = true <-> In id (keys ds).
Proof.
  unfold contains, keys. induction ds as [|[k d] rest IH]; simpl.
  - split; [discriminate|contradiction].
  - destruct (String.eqb_spec k id) as [->|N].
    + split; auto.
    + rewrite IH. split; [auto|intros [E|H]; [contradiction|exact H]].
Qed.

Lemma assign_absent id d ds :
  contains id ds = false -> assign id d ds = ds ++ [(id, d)].
Proof.
  unfold contains. induction ds as [|[k d0] rest IH]; simpl; [reflexivity|].
  destruct (String.eqb k id); [discriminate|].
  intro H. now rewrite IH.
Qed.

Lemma spawn_fold_appends handlers :
  forall ds evs, exists new,
    keys (fst (fold_left spawn_one handlers (ds, evs))) = keys ds ++ new
    /\ snd (fold_left spawn_one handlers (ds, evs))
       = evs ++ map EvCreateTask new
    /\ (NoDup (keys ds) -> NoDup (keys ds ++ new))
    /\ incl new (map handler_id handlers).
Proof.
  induction handlers as [|h hs IH]; intros ds evs; simpl.
  - exists []. rewrite !app_nil_r. repeat split; auto. apply incl_nil_l.
  - destruct (contains (handler_id h) ds) eqn:C.
    + destruct (IH ds evs) as (new & K & E & N & I).
      exists new. repeat split; auto. now apply incl_tl.
    + rewrite (assign_absent _ _ _ C).
      destruct (IH (ds ++ [(handler_id h, spawned h)])
                   (evs ++ [EvCreateTask (handler_id h)]))
        as (new & K & E & N & I).
      exists (handler_id h :: new).
      unfold keys in *. rewrite map_app in *. simpl in *.
      rewrite <- !app_assoc in *. simpl in *.
      repeat split; auto.
      * intro D. apply N. apply NoDup_app; [exact D|repeat constructor; auto|].
        intros k Hk [<-|[]].
        apply (contains_keys (handler_id h) ds) in Hk. congruence.
      * apply incl_cons; [now left|now apply incl_tl].
Qed.

Lemma contains_existsb id ds :
  contains id ds = existsb (fun k => String.eqb k id) (keys ds).
Proof.
  unfold contains, keys. induction ds as [|[k d] rest IH]; simpl; [reflexivity|].
  now destruct (String.eqb k id).
Qed.

Lemma spawn_fold_fresh handlers :
  forall ds evs,
    fold_left spawn_one handlers (ds, evs)
    = (ds ++ map spawned_item (fresh_handlers (keys ds) handlers),
       evs ++ map spawned_event (fresh_handlers (keys ds) handlers)).
Proof.
  induction handlers as [|h hs IH]; intros ds evs; simpl.
  - now rewrite !app_nil_r.
  - rewrite <- contains_existsb.
    destruct (contains (handler_id h) ds) eqn:C; [apply IH|].
    rewrite (assign_absent _ _ _ C), IH.
    unfold keys. rewrite map_app. simpl.
    now rewrite <- !app_assoc.
Qed.

(** X18.  With a body in the memory, spawn leaves a record for every
    handler.  The table afterwards is the table it was given, record by
    record, followed by one fresh record for each handler whose id is
    neither in the table nor that of an earlier handler of the call, in the
    order of the handlers; the events of the call are the creation of one
    task for each of these, in the same order, and nothing else; a table
    without duplicate ids stays so. *)
Theorem spawn_appends_one_task_per_new_id handlers daemons memory body :
  live_fresh_body memory = Some body ->
  let r := spawn_resource_daemons handlers daemons memory in
  let new := fresh_handlers (keys daemons) handlers in
  all_present handlers (table_of r)
  /\ table_of r = daemons ++ map spawned_item new
  /\ events_of r = map spawned_event new
  /\ (NoDup (keys daemons) -> NoDup (keys (table_of r))).
Proof.
  intros B r new. unfold r. rewrite (spawn_with_body _ _ _ _ B).
  unfold table_of, events_of; simpl. split; [apply spawn_fold_all_present|].
  destruct (spawn_fold_appends handlers daemons []) as (ids & K & _ & N & _).
  rewrite K. rewrite spawn_fold_fresh. simpl. auto.
Qed.

Lemma spawn_appends_one_task_per_new_id_witness :
  let r := spawn_resource_daemons
             [IsTimerHandler some_timer; IsDaemonHandler escalating_handler;
              IsTimerHandler sharp_timer;
              IsDaemonHandler (mkDaemonHandler "bg" None None None None)]
             [("fn"%string, spawned (IsDaemonHandler plain_daemon))]
             (mkMemory (Some "body"%string) "memo" 0) in
  table_of r
  = [("fn"%string, spawned (IsDaemonHandler plain_daemon));
     ("tick"%string, spawned (IsTimerHandler some_timer));
     ("bg"%string,
      spawned (IsDaemonHandler (mkDaemonHandler "bg" None None None None)))]
  /\ events_of r = [EvCreateTask "tick"; EvCreateTask "bg"].
Proof.
  intro r.
  destruct (spawn_appends_one_task_per_new_id
              [IsTimerHandler some_timer; IsDaemonHandler escalating_handler;
               IsTimerHandler sharp_timer;
               IsDaemonHandler (mkDaemonHandler "bg" None None None None)]
              [("fn"%string, spawned (IsDaemonHandler plain_daemon))]
              (mkMemory (Some "body"%string) "memo" 0) "body"%string eq_refl)
    as (_ & T & E & _).
  split; [exact T|exact E].
Defined.

Lemma spawn_one_keeps_absent acc h id :
  String.eqb (handler_id h) id = false ->
  contains id (fst acc) = false ->
  contains id (fst (spawn_one acc h)) = false.
Proof.
  destruct acc as [ds evs]; simpl. intros N C.
  destruct (contains (handler_id h) ds); simpl; [exact C|].
  unfold contains in *. now rewrite lookup_assign_other.
Qed.

Lemma lookup_assign_same id d ds :
  contains id ds = false -> lookup id (assign id d ds) = Some d.
Proof.
  unfold contains. induction ds as [|[k d0] rest IH]; simpl.
  - now rewrite String.eqb_refl.
  - destruct (String.eqb k id) eqn:E; [discriminate|].
    simpl. rewrite E. exact IH.
Qed.

Lemma spawn_fold_first handlers id h :
  first_with id handlers = Some h ->
  forall acc, contains id (fst acc) = false ->
    lookup id (fst (fold_left spawn_one handlers acc)) = Some (spawned h).
Proof.
  unfold first_with.
  induction handlers as [|h0 hs IH]; simpl; [discriminate|].
  destruct (String.eqb (handler_id h0) id) eqn:E; intros F acc C.
  - injection F as <-. apply String.eqb_eq in E. subst id.
    apply spawn_fold_keeps_record.
    destruct acc as [ds evs]; simpl in *. rewrite C. simpl.
    now apply lookup_assign_same.
  - apply IH; [exact F|]. now apply spawn_one_keeps_absent.
Qed.

Lemma fresh_count_seen id hs :
  forall seen,
    existsb (fun k => String.eqb k id) seen = true ->
    count (is_create_of id) (map spawned_event (fresh_handlers seen hs)) = 0%nat.
Proof.
  induction hs as [|h hs IH]; intros seen S; simpl; [reflexivity|].
  destruct (existsb (fun k => String.eqb k (handler_id h)) seen) eqn:E;
    [now apply IH|].
  unfold count in *. simpl.
  destruct (String.eqb_spec (handler_id h) id) as [K|K];
    [rewrite K in E; congruence|].
  apply IH. rewrite existsb_app. apply orb_true_iff. now left.
Qed.

Lemma fresh_count_first id hs h :
  first_with id hs = Some h ->
  forall seen,
    existsb (fun k => String.eqb k id) seen = false ->
    count (is_create_of id) (map spawned_event (fresh_handlers seen hs)) = 1%nat.
Proof.
  unfold first_with.
  induction hs as [|h0 hs IH]; simpl; [discriminate|].
  destruct (String.eqb_spec (handler_id h0) id) as [K|K]; intros F seen S.
  - replace (existsb (fun k => String.eqb k (handler_id h0)) seen) with false
      by (rewrite K; symmetry; exact S).
    unfold count. simpl. rewrite K, String.eqb_refl. simpl.
    f_equal. apply (fresh_count_seen id hs).
    rewrite existsb_app. apply orb_true_iff. right. simpl.
    now rewrite String.eqb_refl.
  - destruct (existsb (fun k => String.eqb k (handler_id h0)) seen);
      [now apply IH|].
    unfold count in *. simpl.
    destruct (String.eqb_spec (handler_id h0) id); [contradiction|].
    apply IH; [exact F|].
    rewrite existsb_app. apply orb_false_iff. split; [exact S|]. simpl.
    destruct (String.eqb_spec (handler_id h0) id); [contradiction|reflexivity].
Qed.

(** X19.  When several handlers of one call have the same id, the first of
    them gets the daemon: for an id that is not in the table, the record
    after spawn is the fresh record of the first handler with that id (a
    stopper without reasons, a task that is not done), and the call creates
    exactly one task for that id, so the later handlers with the id get
    neither a record nor a task. *)
Theorem spawn_first_handler_wins handlers daemons memory body id h :
  live_fresh_body memory = Some body ->
  contains id daemons = false ->
  first_with id handlers = Some h ->
  let r := spawn_resource_daemons handlers daemons memory in
  lookup id (table_of r) = Some (spawned h)
  /\ count (is_create_of id) (events_of r) = 1%nat.
Proof.
  intros B C F r. unfold r. rewrite (spawn_with_body _ _ _ _ B).
  unfold table_of, events_of; simpl. split.
  - now apply spawn_fold_first.
  - rewrite spawn_fold_fresh. simpl.
    apply fresh_count_first with (h := h); [exact F|].
    now rewrite <- contains_existsb.
Qed.

Lemma spawn_first_handler_wins_witness :
  let r := spawn_resource_daemons
             [IsTimerHandler some_timer; IsTimerHandler idle_only_timer;
              IsTimerHandler sharp_timer]
             [] (mkMemory (Some "body"%string) "memo" 0) in
  lookup "tick" (table_of r) = Some (spawned (IsTimerHandler some_timer))
  /\ count (is_create_of "tick") (events_of r) = 1%nat.
Proof.
  apply (spawn_first_handler_wins
           [IsTimerHandler some_timer; IsTimerHandler idle_only_timer;
            IsTimerHandler sharp_timer]
           [] (mkMemory (Some "body"%string) "memo" 0) "body"%string "tick"
           (IsTimerHandler some_timer) eq_refl eq_refl eq_refl).
Defined.

(** ** When stop-for-deletion has nothing left to wait for *)

Lemma stop_turn_no_delay now clock tk id d d' evs :
  stop_resource_daemon now clock tk id d = inr (d', evs, []) ->
  done (task d') = true \/ is_set DAEMON_ABANDONED (stopper d') = true.
Proof.
  unfold stop_resource_daemon, flag_once.
  destruct (deletion_deadlines (handler d)) as [e|[[backoff timeout] polling]];
    [discriminate|].
  cbn [with_task with_stopper task handler stopper].
  intro E; crack;
    cbn [with_task with_stopper task handler stopper after_await done] in *;
    rewrite ?is_set_set_reason in *; simpl in *; auto.
Qed.

Lemma stop_items_no_delay now env items :
  forall clock items' evs,
    stop_items now clock env items = (items', evs, inr []) ->
    all_gone items'.
Proof.
  induction items as [|[id d] rest IH]; simpl; intros clock items' evs E.
  - injection E as <- _. constructor.
  - destruct (stop_resource_daemon now clock (env id) id d)
      as [e|[[d' evs0] delays0]] eqn:T; [discriminate|].
    destruct (stop_items now (tk_clock (env id)) env rest)
      as [[rest' evs'] [e|delays']] eqn:R; [discriminate|].
    injection E as <- _ D.
    apply app_eq_nil in D. destruct D as [-> ->].
    constructor; [|eapply IH; eauto].
    simpl. eapply stop_turn_no_delay; eauto.
Qed.

(** X20.  When a call of stop-for-deletion returns no delays at all, no
    daemon is left to wait for: every daemon of the table is finished or
    flagged DAEMON_ABANDONED. *)
Theorem no_delays_means_all_gone now env daemons daemons' evs :
  stop_resource_daemons now env daemons = (daemons', evs, inr []) ->
  all_gone daemons'.
Proof. unfold stop_resource_daemons. apply stop_items_no_delay. Qed.

Lemma no_delays_means_all_gone_witness :
  all_gone
    [("fn"%string,
      mkDaemon (mkStopper [DAEMON_ABANDONED; DAEMON_CANCELLED;
                           DAEMON_SIGNALLED; RESOURCE_DELETED] (Some 100))
               (IsDaemonHandler escalating_handler) (mkTask false 1))].
Proof.
  apply (no_delays_means_all_gone 115 (never_finishes 115)
           [("fn"%string,
             mkDaemon (mkStopper [DAEMON_CANCELLED; DAEMON_SIGNALLED;
                                  RESOURCE_DELETED] (Some 100))
                      (IsDaemonHandler escalating_handler) (mkTask false 1))]
           _ (turn_prefix "fn" ++ [EvSet "fn" DAEMON_ABANDONED;
                                   EvWarnOrphaned "fn"; EvResourceWarning "fn"])
           eq_refl).
Defined.
